(** * Binelek MCP server: gateway client and tool-group dispatchers

    A shallow embedding of [src/gateway/client.ts] (class
    [BinelekGatewayClient]) and of the five tool groups
    [src/tools/{ontology,search,ai,pipeline,admin}.ts], followed by the
    properties of the design document that concern them.

    Conventions of the embedding.
    - A JS string is a [string] of bytes (UTF-8); the marks U+2713 and
      U+2717 are three bytes each.
    - A JS number is an integer [Z], printed in full in decimal;
      fractional numbers, NaN, the infinities and the exponent notation
      of very large numbers are outside the model.
    - [json] is what [JSON.parse] yields; [value := option json] adds
      [undefined] as [None].
    - An object keeps its properties as an association list in enumeration
      order; lookup takes the first binding.
    - A [throw] is the left injection of a sum; [try]/[catch] is
      [try_catch]. A computation also lists the requests that the client
      hands to the HTTP library, in order; the requests that the library
      makes by itself when it follows a redirect are not in that list.
      Diagnostics written with [console.error] do not influence any
      returned value and are left out. *)

From Stdlib Require Import String Ascii List ZArith Lia Bool DecimalString.
Import ListNotations.
Local Open Scope string_scope.
Local Open Scope Z_scope.
Set Warnings "-register-all".

(** ** JavaScript values *)

Inductive json : Type :=
| JNull
| JBool (b : bool)
| JNum (n : Z)
| JStr (s : string)
| JArr (items : list json)
| JObj (props : list (string * json)).

(** A value that may be [undefined]. *)
Definition value : Type := option json.
Definition undefined : value := None.

Module Js.

(** [o[k]] on an association list. *)
Fixpoint assoc {A : Type} (k : string) (l : list (string * A)) : option A :=
  match l with
  | [] => None
  | (k', v) :: tl => if String.eqb k k' then Some v else assoc k tl
  end.

(** [o[k] = v] keeping the position of an existing key. Array-index
    keys, which the language enumerates first, stay in insertion
    order here; no statement below depends on the order of the
    properties of a request body. *)
Fixpoint assign {A : Type} (k : string) (v : A) (l : list (string * A))
  : list (string * A) :=
  match l with
  | [] => [(k, v)]
  | (k', v') :: tl =>
      if String.eqb k k' then (k', v) :: tl else (k', v') :: assign k v tl
  end.

(** ToBoolean. *)
Definition truthy (v : value) : bool :=
  match v with
  | None | Some JNull => false
  | Some (JBool b) => b
  | Some (JNum n) => negb (n =? 0)
  | Some (JStr s) => negb (String.eqb s "")
  | Some (JArr _) | Some (JObj _) => true
  end.

(** [a || b]. *)
Definition or_else (a : value) (b : json) : json :=
  match a with
  | Some j => if truthy a then j else b
  | None => b
  end.

Definition string_of_Z (n : Z) : string :=
  NilZero.string_of_int (Z.to_int n).

Definition join (sep : string) (parts : list string) : string :=
  String.concat sep parts.

(** ToString on parsed JSON, as a template literal applies it. An array
    joins its elements with a comma, printing [null] as the empty
    string; an object prints as [[object Object]]. *)
Fixpoint to_string_json (j : json) : string :=
  match j with
  | JNull => "null"
  | JBool true => "true"
  | JBool false => "false"
  | JNum n => string_of_Z n
  | JStr s => s
  | JArr items =>
      join "," (map (fun x => match x with
                              | JNull => ""
                              | _ => to_string_json x
                              end) items)
  | JObj _ => "[object Object]"
  end.

Definition to_string (v : value) : string :=
  match v with
  | None => "undefined"
  | Some j => to_string_json j
  end.

Fixpoint indexed (i : Z) (l : list json) : list (string * json) :=
  match l with
  | [] => []
  | x :: tl => (string_of_Z i, x) :: indexed (i + 1) tl
  end.

Fixpoint chars (s : string) : list json :=
  match s with
  | EmptyString => []
  | String c tl => JStr (String c "") :: chars tl
  end.

(** The own enumerable properties that [{...v}] copies. *)
Definition own_props (v : value) : list (string * json) :=
  match v with
  | Some (JObj props) => props
  | Some (JArr items) => indexed 0 items
  | Some (JStr s) => indexed 0 (chars s)
  | _ => []
  end.

(** [{...init, ...v}] on top of the properties [init]. *)
Definition spread (init : list (string * value)) (v : value)
  : list (string * value) :=
  fold_left (fun acc kv => assign (fst kv) (Some (snd kv)) acc)
            (own_props v) init.

(** [j[k]] for a property name [k] that no prototype defines: [None]
    stands for a TypeError (reading a property of [null]), [Some None]
    for [undefined]. *)
Definition get (j : json) (k : string) : option value :=
  match j with
  | JNull => None
  | JObj props => Some (assoc k props)
  | _ => Some undefined
  end.

End Js.

(** ** JSON.stringify *)

Module JSON.

Definition dquote : string := String (ascii_of_nat 34) "".
Definition backslash : string := String (ascii_of_nat 92) "".
Definition newline : string := String (ascii_of_nat 10) "".

Definition hex_digit (n : nat) : string :=
  String.substring n 1 "0123456789abcdef".

(** QuoteJSONString, one byte at a time; bytes from 0x20 on pass
    through, so a UTF-8 sequence is kept. *)
Definition escape_char (c : ascii) : string :=
  let n := nat_of_ascii c in
  if Nat.eqb n 8 then backslash ++ "b"
  else if Nat.eqb n 9 then backslash ++ "t"
  else if Nat.eqb n 10 then backslash ++ "n"
  else if Nat.eqb n 12 then backslash ++ "f"
  else if Nat.eqb n 13 then backslash ++ "r"
  else if Nat.eqb n 34 then backslash ++ dquote
  else if Nat.eqb n 92 then backslash ++ backslash
  else if Nat.ltb n 32
       then backslash ++ "u00" ++ hex_digit (Nat.div n 16)
                      ++ hex_digit (Nat.modulo n 16)
  else String c "".

Fixpoint escape (s : string) : string :=
  match s with
  | EmptyString => ""
  | String c tl => escape_char c ++ escape tl
  end.

Definition quote (s : string) : string := dquote ++ escape s ++ dquote.

Fixpoint spaces (n : nat) : string :=
  match n with
  | O => ""
  | S m => " " ++ spaces m
  end.

(** [JSON.stringify(j)]: no white space. *)
Fixpoint compact (j : json) : string :=
  match j with
  | JNull => "null"
  | JBool true => "true"
  | JBool false => "false"
  | JNum n => Js.string_of_Z n
  | JStr s => quote s
  | JArr items => "[" ++ Js.join "," (map compact items) ++ "]"
  | JObj props =>
      "{" ++ Js.join ","
               (map (fun kv => quote (fst kv) ++ ":" ++ compact (snd kv))
                    props)
          ++ "}"
  end.

(** [JSON.stringify(j, null, gap)] at nesting depth [depth]. *)
Fixpoint pretty (gap depth : nat) (j : json) : string :=
  let inner := spaces (gap * S depth) in
  let outer := spaces (gap * depth) in
  match j with
  | JNull => "null"
  | JBool true => "true"
  | JBool false => "false"
  | JNum n => Js.string_of_Z n
  | JStr s => quote s
  | JArr [] => "[]"
  | JArr items =>
      "[" ++ newline ++ inner
          ++ Js.join ("," ++ newline ++ inner)
               (map (pretty gap (S depth)) items)
          ++ newline ++ outer ++ "]"
  | JObj [] => "{}"
  | JObj props =>
      "{" ++ newline ++ inner
          ++ Js.join ("," ++ newline ++ inner)
               (map (fun kv => quote (fst kv) ++ ": "
                                 ++ pretty gap (S depth) (snd kv))
                    props)
          ++ newline ++ outer ++ "}"
  end.

(** [JSON.stringify(v, null, 2)]; [undefined] stays [undefined]. *)
Definition stringify2 (v : value) : option string :=
  option_map (pretty 2 0) v.

(** [JSON.stringify(v)]. *)
Definition stringify (v : value) : option string :=
  option_map compact v.

End JSON.

(** The text a template literal inserts for [JSON.stringify(...)]. *)
Definition interpolate (s : option string) : string :=
  match s with
  | Some t => t
  | None => "undefined"
  end.

(** ** HTTP exchanges and thrown values *)

Inductive Method : Type := GET | POST | PUT | DELETE.

(** The [data] argument of a request: none, an object literal whose
    fields may be [undefined], or a value passed as it is. *)
Inductive Body : Type :=
| NoBody
| ObjectLiteral (fields : list (string * value))
| Payload (j : json).

(** The merged request configuration that reaches the transport. A header
    whose value is [undefined] is bound to [None]. *)
Record Request : Type := mkRequest {
  req_method : Method;
  req_baseURL : option string;
  req_url : string;
  req_headers : list (string * option string);
  req_data : Body;
  req_timeout : Z
}.

Record Response : Type := mkResponse {
  status : Z;
  data : json
}.

(** What becomes of one request, as the HTTP library sees it.
    - [Responded r]: a final answer that the library hands on, that is
      an answer that it does not follow as a redirect.
    - [Redirected r location next]: an answer [r] with a status from 300
      to 399 and a [Location] header. The client creates its instance
      without [maxRedirects: 0], so the library follows the redirect by
      itself, with a request of its own to [location]; [next] is what
      that ends in (no response, when the library passes its limit of
      redirects).
    - [NoResponse m]: the request was sent and no answer came.
    - [NotSent m]: the request could not be sent. *)
Inductive Exchange : Type :=
| Responded (r : Response)
| Redirected (r : Response) (location : string) (next : Exchange)
| NoResponse (message : string)
| NotSent (message : string).

(** Thrown values: [new Error(m)], a TypeError of the runtime, and the
    HTTP library's own error, which carries [request] when the request
    was sent and [response] when an answer came back. *)
Inductive JsError : Type :=
| Error (message : string)
| TypeError (message : string)
| AxiosError (message : string) (request : bool) (response : option Response).

Definition message (e : JsError) : string :=
  match e with
  | Error m | TypeError m | AxiosError m _ _ => m
  end.

Definition response (e : JsError) : option Response :=
  match e with
  | AxiosError _ _ r => r
  | _ => None
  end.

Definition request (e : JsError) : bool :=
  match e with
  | AxiosError _ q _ => q
  | _ => false
  end.

(** ** Computations: a result or a thrown value, and the requests sent *)

Definition M (A : Type) : Type := (JsError + A) * list Request.

Definition ret {A : Type} (a : A) : M A := (inr a, []).
Definition throw {A : Type} (e : JsError) : M A := (inl e, []).

Definition bind {A B : Type} (m : M A) (f : A -> M B) : M B :=
  match m with
  | (inl e, log) => (inl e, log)
  | (inr a, log) => let (r, log') := f a in (r, (log ++ log')%list)
  end.

(** [try { m } catch (error) { handler error }]. *)
Definition try_catch {A : Type} (m : M A) (handler : JsError -> M A) : M A :=
  match m with
  | (inl e, log) => let (r, log') := handler e in (r, (log ++ log')%list)
  | (inr a, log) => (inr a, log)
  end.

Definition outcome {A : Type} (m : M A) : JsError + A := fst m.
Definition sent {A : Type} (m : M A) : list Request := snd m.

Declare Scope js_scope.
Delimit Scope js_scope with js.
Notation "x <- m ;; k" := (bind m (fun x => k))
  (at level 61, m at next level, right associativity) : js_scope.
Local Open Scope js_scope.

(** ** The HTTP library, as far as the client relies on it *)

Module Axios.

(** The defaults given to [axios.create]. *)
Record Instance : Type := mkInstance {
  baseURL : option string;
  headers : list (string * option string);
  timeout : Z;
  validateStatus : Z -> bool
}.

Definition merge (inst : Instance) (m : Method) (url : string) (d : Body)
  : Request :=
  mkRequest m (baseURL inst) url (headers inst) d (timeout inst).

(** The promise settles on the exchange. A redirect is followed, and
    the promise settles on what that ends in; the body of the redirect
    itself is dropped. A final answer whose status passes
    [validateStatus] resolves; any other rejects with the library's
    error, with [response] set. An answer with a status below 200 is
    not a final answer: the library goes on waiting, and the request
    ends without a response when the time is up. Without a response the
    error has [request] only, and when the request could not be sent it
    has neither. *)
Fixpoint settle (inst : Instance) (x : Exchange) : JsError + Response :=
  match x with
  | Responded r =>
      if status r <? 200
      then inl (AxiosError ("timeout of " ++ Js.string_of_Z (timeout inst)
                              ++ "ms exceeded") true None)
      else if validateStatus inst (status r) then inr r
      else inl (AxiosError ("Request failed with status code "
                              ++ Js.string_of_Z (status r)) true (Some r))
  | Redirected _ _ next => settle inst next
  | NoResponse m => inl (AxiosError m true None)
  | NotSent m => inl (AxiosError m false None)
  end.

(** The response interceptor of the client: the first callback returns
    the response, the second logs and rejects with the same error. *)
Definition interceptor (r : JsError + Response) : JsError + Response :=
  match r with
  | inr resp => inr resp
  | inl error => inl error
  end.

Section Transport.
Variable adapter : Request -> Exchange.

Definition send (inst : Instance) (m : Method) (url : string) (d : Body)
  : M Response :=
  let rq := merge inst m url d in
  (interceptor (settle inst (adapter rq)), [rq]).

Definition get inst url := send inst GET url NoBody.
Definition delete inst url := send inst DELETE url NoBody.
Definition post inst url d := send inst POST url d.
Definition put inst url d := send inst PUT url d.
End Transport.

End Axios.

(** ** The gateway client *)

(** [interface GatewayConfig]. The declared types are erased at run time:
    a field is [None] when the object given to the constructor has no
    such property, also for [baseUrl] and [tenantId], which the
    interface declares without a question mark. *)
Record GatewayConfig : Type := mkConfig {
  baseUrl : option string;
  token : option string;
  tenantId : option string;
  timeout : option Z
}.

Module Gateway.

(** The private fields of [BinelekGatewayClient]. *)
Record t : Type := mkClient {
  client : Axios.Instance;
  tenantId : option string
}.

(** [if (config.token) headers['Authorization'] = ...]. *)
Definition with_token (tok : option string)
           (headers : list (string * option string))
  : list (string * option string) :=
  match tok with
  | Some tk =>
      if String.eqb tk "" then headers
      else Js.assign "Authorization" (Some ("Bearer " ++ tk)) headers
  | None => headers
  end.

(** [config.timeout || 30000]. *)
Definition timeout_or_default (tm : option Z) : Z :=
  match tm with
  | Some n => if n =? 0 then 30000 else n
  | None => 30000
  end.

Definition constructor (config : GatewayConfig) : M t :=
  let '(mkConfig cfg_baseUrl cfg_token cfg_tenantId cfg_timeout) := config in
  let headers :=
    with_token cfg_token
      [("X-Tenant-Id", cfg_tenantId);
       ("Content-Type", Some "application/json")] in
  ret (mkClient
         (Axios.mkInstance cfg_baseUrl headers
            (timeout_or_default cfg_timeout)
            (fun status => status <? 500))
         cfg_tenantId).

(** [private handleError(error: any): never]. *)
Definition handleError {A : Type} (error : JsError) : M A :=
  match response error with
  | Some r =>
      throw (Error ("API Error (" ++ Js.string_of_Z (status r) ++ "): "
                      ++ interpolate (JSON.stringify (Some (data r)))))
  | None =>
      if request error
      then throw (Error "No response from API Gateway. Is it running?")
      else throw (Error ("Request failed: " ++ message error))
  end.

(** A parameter declared [p = d]. *)
Definition default_param (v : value) (d : json) : value :=
  match v with
  | None => Some d
  | Some _ => v
  end.

Section Methods.
Variable adapter : Request -> Exchange.
Variable this : t.

Definition healthCheck : M json :=
  try_catch
    (response <- Axios.get adapter (client this) "/health" ;;
     ret (data response))
    handleError.

Definition getEntity (entityId : value) : M json :=
  try_catch
    (response <- Axios.get adapter (client this)
                   ("/api/ontology/entities/" ++ Js.to_string entityId) ;;
     if status response =? 404
     then throw (Error ("Entity not found: " ++ Js.to_string entityId))
     else ret (data response))
    handleError.

Definition queryEntities (cypherQuery parameters : value) : M json :=
  try_catch
    (response <- Axios.post adapter (client this) "/api/ontology/query"
                   (ObjectLiteral
                      [("query", cypherQuery);
                       ("parameters",
                        Some (Js.or_else parameters (JObj [])))]) ;;
     ret (data response))
    handleError.

Definition createEntity (entityType attributes : value) : M json :=
  try_catch
    (response <- Axios.post adapter (client this) "/api/ontology/entities"
                   (ObjectLiteral
                      [("type", entityType);
                       ("attributes", attributes);
                       ("tenantId", option_map JStr (tenantId this))]) ;;
     ret (data response))
    handleError.

Definition updateEntity (entityId attributes : value) : M json :=
  try_catch
    (response <- Axios.put adapter (client this)
                   ("/api/ontology/entities/" ++ Js.to_string entityId)
                   (ObjectLiteral [("attributes", attributes)]) ;;
     ret (data response))
    handleError.

Definition deleteEntity (entityId : value) : M json :=
  try_catch
    (response <- Axios.delete adapter (client this)
                   ("/api/ontology/entities/" ++ Js.to_string entityId) ;;
     ret (data response))
    handleError.

Definition getRelationships (entityId : value) : M json :=
  try_catch
    (response <- Axios.get adapter (client this)
                   ("/api/ontology/entities/" ++ Js.to_string entityId
                      ++ "/relationships") ;;
     ret (data response))
    handleError.

Definition createRelationship
           (sourceId targetId relationshipType properties : value)
  : M json :=
  try_catch
    (response <- Axios.post adapter (client this)
                   "/api/ontology/relationships"
                   (ObjectLiteral
                      [("sourceId", sourceId);
                       ("targetId", targetId);
                       ("type", relationshipType);
                       ("properties",
                        Some (Js.or_else properties (JObj [])))]) ;;
     ret (data response))
    handleError.

Definition semanticSearch (query entityTypes limit : value) : M json :=
  let limit := default_param limit (JNum 10) in
  try_catch
    (response <- Axios.post adapter (client this) "/api/search/semantic"
                   (ObjectLiteral
                      [("query", query);
                       ("entityTypes", entityTypes);
                       ("limit", limit)]) ;;
     ret (data response))
    handleError.

Definition keywordSearch (query filters limit : value) : M json :=
  let limit := default_param limit (JNum 10) in
  try_catch
    (response <- Axios.post adapter (client this) "/api/search/keyword"
                   (ObjectLiteral
                      [("query", query);
                       ("filters", filters);
                       ("limit", limit)]) ;;
     ret (data response))
    handleError.

Definition hybridSearch (query options : value) : M json :=
  try_catch
    (response <- Axios.post adapter (client this) "/api/search/hybrid"
                   (ObjectLiteral
                      (Js.spread [("query", query)] options)) ;;
     ret (data response))
    handleError.

Definition predict (modelType input : value) : M json :=
  try_catch
    (response <- Axios.post adapter (client this) "/api/ai/predict"
                   (ObjectLiteral
                      [("modelType", modelType); ("input", input)]) ;;
     ret (data response))
    handleError.

Definition chat (message context : value) : M json :=
  try_catch
    (response <- Axios.post adapter (client this) "/api/ai/chat"
                   (ObjectLiteral
                      [("message", message);
                       ("context",
                        Some (Js.or_else context (JArr [])))]) ;;
     ret (data response))
    handleError.

Definition analyzeEntity (entityId analysisType : value) : M json :=
  try_catch
    (response <- Axios.post adapter (client this) "/api/ai/analyze"
                   (ObjectLiteral
                      [("entityId", entityId);
                       ("analysisType", analysisType)]) ;;
     ret (data response))
    handleError.

Definition listPipelines : M json :=
  try_catch
    (response <- Axios.get adapter (client this)
                   "/api/pipeline/pipelines" ;;
     ret (data response))
    handleError.

Definition getPipeline (pipelineId : value) : M json :=
  try_catch
    (response <- Axios.get adapter (client this)
                   ("/api/pipeline/pipelines/"
                      ++ Js.to_string pipelineId) ;;
     ret (data response))
    handleError.

Definition triggerPipeline (pipelineId parameters : value) : M json :=
  try_catch
    (response <- Axios.post adapter (client this)
                   ("/api/pipeline/pipelines/"
                      ++ Js.to_string pipelineId ++ "/trigger")
                   (Payload (Js.or_else parameters (JObj []))) ;;
     ret (data response))
    handleError.

Definition getPipelineRuns (pipelineId : value) : M json :=
  try_catch
    (response <- Axios.get adapter (client this)
                   ("/api/pipeline/pipelines/"
                      ++ Js.to_string pipelineId ++ "/runs") ;;
     ret (data response))
    handleError.

Definition listDomains : M json :=
  try_catch
    (response <- Axios.get adapter (client this) "/api/domains" ;;
     ret (data response))
    handleError.

Definition getDomainConfig (domainName : value) : M json :=
  try_catch
    (response <- Axios.get adapter (client this)
                   ("/api/domains/" ++ Js.to_string domainName) ;;
     ret (data response))
    handleError.

Definition getOntologySchema (domainName : value) : M json :=
  try_catch
    (response <- Axios.get adapter (client this)
                   ("/api/domains/" ++ Js.to_string domainName
                      ++ "/ontology") ;;
     ret (data response))
    handleError.

Definition validateYaml (yamlContent : value) : M json :=
  try_catch
    (response <- Axios.post adapter (client this) "/api/regen/validate"
                   (ObjectLiteral [("yaml", yamlContent)]) ;;
     ret (data response))
    handleError.

Definition generateCode (yamlContent targetLanguage : value) : M json :=
  try_catch
    (response <- Axios.post adapter (client this) "/api/regen/generate"
                   (ObjectLiteral
                      [("yaml", yamlContent);
                       ("language", targetLanguage)]) ;;
     ret (data response))
    handleError.

End Methods.

(** One constructor per public method, with its arguments. *)
Inductive Call : Type :=
| HealthCheck
| GetEntity (entityId : value)
| QueryEntities (cypherQuery parameters : value)
| CreateEntity (entityType attributes : value)
| UpdateEntity (entityId attributes : value)
| DeleteEntity (entityId : value)
| GetRelationships (entityId : value)
| CreateRelationship (sourceId targetId relationshipType properties : value)
| SemanticSearch (query entityTypes limit : value)
| KeywordSearch (query filters limit : value)
| HybridSearch (query options : value)
| Predict (modelType input : value)
| Chat (message context : value)
| AnalyzeEntity (entityId analysisType : value)
| ListPipelines
| GetPipeline (pipelineId : value)
| TriggerPipeline (pipelineId parameters : value)
| GetPipelineRuns (pipelineId : value)
| ListDomains
| GetDomainConfig (domainName : value)
| GetOntologySchema (domainName : value)
| ValidateYaml (yamlContent : value)
| GenerateCode (yamlContent targetLanguage : value).

Definition invoke (adapter : Request -> Exchange) (this : t) (c : Call)
  : M json :=
  match c with
  | HealthCheck => healthCheck adapter this
  | GetEntity a => getEntity adapter this a
  | QueryEntities a b => queryEntities adapter this a b
  | CreateEntity a b => createEntity adapter this a b
  | UpdateEntity a b => updateEntity adapter this a b
  | DeleteEntity a => deleteEntity adapter this a
  | GetRelationships a => getRelationships adapter this a
  | CreateRelationship a b c d => createRelationship adapter this a b c d
  | SemanticSearch a b c => semanticSearch adapter this a b c
  | KeywordSearch a b c => keywordSearch adapter this a b c
  | HybridSearch a b => hybridSearch adapter this a b
  | Predict a b => predict adapter this a b
  | Chat a b => chat adapter this a b
  | AnalyzeEntity a b => analyzeEntity adapter this a b
  | ListPipelines => listPipelines adapter this
  | GetPipeline a => getPipeline adapter this a
  | TriggerPipeline a b => triggerPipeline adapter this a b
  | GetPipelineRuns a => getPipelineRuns adapter this a
  | ListDomains => listDomains adapter this
  | GetDomainConfig a => getDomainConfig adapter this a
  | GetOntologySchema a => getOntologySchema adapter this a
  | ValidateYaml a => validateYaml adapter this a
  | GenerateCode a b => generateCode adapter this a b
  end.

End Gateway.

(** ** Tool calls and their results *)

Record TextContent : Type := mkText {
  type : string;
  text : string
}.

(** [isError] is [None] when the object literal has no such property. *)
Record ToolResult : Type := mkResult {
  content : list TextContent;
  isError : option bool
}.

(** [request.params]: the protocol schema admits an object or nothing
    for [arguments]. *)
Record CallToolRequest : Type := mkCall {
  name : string;
  arguments : option (list (string * json))
}.

(** [{ content: [{ type: 'text', text }] }]. *)
Definition text_result (t : string) : ToolResult :=
  mkResult [mkText "text" t] None.

(** [{ content: [{ type: 'text', text }], isError: true }]. *)
Definition error_result (t : string) : ToolResult :=
  mkResult [mkText "text" t] (Some true).

(** [const { first, ... } = args]: the runtime's TypeError when [args]
    is [undefined]. *)
Definition destructure (first : string) (args : option (list (string * json)))
  : M (list (string * json)) :=
  match args with
  | Some props => ret props
  | None =>
      throw (TypeError ("Cannot destructure property '" ++ first
                          ++ "' of 'args' as it is undefined."))
  end.

(** [args.k]. *)
Definition member (k : string) (args : option (list (string * json)))
  : M value :=
  match args with
  | Some props => ret (Js.assoc k props)
  | None =>
      throw (TypeError ("Cannot read properties of undefined (reading '"
                          ++ k ++ "')"))
  end.

(** [result.k] on a response body. *)
Definition field (k : string) (result : json) : M value :=
  match Js.get result k with
  | Some v => ret v
  | None =>
      throw (TypeError ("Cannot read properties of null (reading '"
                          ++ k ++ "')"))
  end.

Definition unknown_tool (name : string) : M ToolResult :=
  ret (error_result ("Unknown tool: " ++ name)).

(** The [catch (error: any)] clause shared by the five handlers. *)
Definition on_error (error : JsError) : M ToolResult :=
  ret (error_result ("Error: " ++ message error)).

Definition check_mark : string := "✓".
Definition cross_mark : string := "✗".

Section Tools.
Variable adapter : Request -> Exchange.
Variable gateway : Gateway.t.

Local Notation "'case' n 'of' s 'then' a 'otherwise' b" :=
  (if String.eqb n s then a else b)
    (at level 10, n at level 9, s at level 9, a at level 200,
     b at level 200, only parsing).

(** *** tools/ontology.ts *)

Definition ontology_tools : list string :=
  ["binelek_get_entity"; "binelek_query_entities"; "binelek_create_entity";
   "binelek_update_entity"; "binelek_delete_entity";
   "binelek_get_relationships"; "binelek_create_relationship"].

Definition registerOntologyTools (request : CallToolRequest)
  : M ToolResult :=
  let name := name request in
  let args := arguments request in
  try_catch
    (case name of "binelek_get_entity" then
       (props <- destructure "entityId" args ;;
        let entityId := Js.assoc "entityId" props in
        result <- Gateway.getEntity adapter gateway entityId ;;
        ret (text_result (JSON.pretty 2 0 result)))
     otherwise case name of "binelek_query_entities" then
       (props <- destructure "cypherQuery" args ;;
        let cypherQuery := Js.assoc "cypherQuery" props in
        let parameters := Js.assoc "parameters" props in
        result <- Gateway.queryEntities adapter gateway
                    cypherQuery parameters ;;
        ret (text_result (JSON.pretty 2 0 result)))
     otherwise case name of "binelek_create_entity" then
       (props <- destructure "entityType" args ;;
        let entityType := Js.assoc "entityType" props in
        let attributes := Js.assoc "attributes" props in
        result <- Gateway.createEntity adapter gateway
                    entityType attributes ;;
        ret (text_result ("Entity created successfully:" ++ JSON.newline
                            ++ JSON.pretty 2 0 result)))
     otherwise case name of "binelek_update_entity" then
       (props <- destructure "entityId" args ;;
        let entityId := Js.assoc "entityId" props in
        let attributes := Js.assoc "attributes" props in
        result <- Gateway.updateEntity adapter gateway
                    entityId attributes ;;
        ret (text_result ("Entity updated successfully:" ++ JSON.newline
                            ++ JSON.pretty 2 0 result)))
     otherwise case name of "binelek_delete_entity" then
       (props <- destructure "entityId" args ;;
        let entityId := Js.assoc "entityId" props in
        _ <- Gateway.deleteEntity adapter gateway entityId ;;
        ret (text_result ("Entity " ++ Js.to_string entityId
                            ++ " deleted successfully")))
     otherwise case name of "binelek_get_relationships" then
       (props <- destructure "entityId" args ;;
        let entityId := Js.assoc "entityId" props in
        result <- Gateway.getRelationships adapter gateway entityId ;;
        ret (text_result (JSON.pretty 2 0 result)))
     otherwise case name of "binelek_create_relationship" then
       (props <- destructure "sourceId" args ;;
        let sourceId := Js.assoc "sourceId" props in
        let targetId := Js.assoc "targetId" props in
        let relationshipType := Js.assoc "relationshipType" props in
        let properties := Js.assoc "properties" props in
        result <- Gateway.createRelationship adapter gateway
                    sourceId targetId relationshipType properties ;;
        ret (text_result ("Relationship created successfully:"
                            ++ JSON.newline ++ JSON.pretty 2 0 result)))
     otherwise unknown_tool name)
    on_error.

(** *** tools/search.ts *)

Definition search_tools : list string :=
  ["binelek_semantic_search"; "binelek_keyword_search";
   "binelek_hybrid_search"].

Definition registerSearchTools (request : CallToolRequest)
  : M ToolResult :=
  let name := name request in
  let args := arguments request in
  try_catch
    (case name of "binelek_semantic_search" then
       (props <- destructure "query" args ;;
        let query := Js.assoc "query" props in
        let entityTypes := Js.assoc "entityTypes" props in
        let limit := Js.assoc "limit" props in
        result <- Gateway.semanticSearch adapter gateway
                    query entityTypes limit ;;
        ret (text_result (JSON.pretty 2 0 result)))
     otherwise case name of "binelek_keyword_search" then
       (props <- destructure "query" args ;;
        let query := Js.assoc "query" props in
        let filters := Js.assoc "filters" props in
        let limit := Js.assoc "limit" props in
        result <- Gateway.keywordSearch adapter gateway
                    query filters limit ;;
        ret (text_result (JSON.pretty 2 0 result)))
     otherwise case name of "binelek_hybrid_search" then
       (query <- member "query" args ;;
        result <- Gateway.hybridSearch adapter gateway
                    query (option_map JObj args) ;;
        ret (text_result (JSON.pretty 2 0 result)))
     otherwise unknown_tool name)
    on_error.

(** *** tools/ai.ts *)

Definition ai_tools : list string :=
  ["binelek_ai_chat"; "binelek_ai_predict"; "binelek_ai_analyze_entity"].

Definition registerAITools (request : CallToolRequest) : M ToolResult :=
  let name := name request in
  let args := arguments request in
  try_catch
    (case name of "binelek_ai_chat" then
       (props <- destructure "message" args ;;
        let message := Js.assoc "message" props in
        let context := Js.assoc "context" props in
        result <- Gateway.chat adapter gateway message context ;;
        ret (text_result (match result with
                          | JStr s => s
                          | _ => JSON.pretty 2 0 result
                          end)))
     otherwise case name of "binelek_ai_predict" then
       (props <- destructure "modelType" args ;;
        let modelType := Js.assoc "modelType" props in
        let input := Js.assoc "input" props in
        result <- Gateway.predict adapter gateway modelType input ;;
        ret (text_result (JSON.pretty 2 0 result)))
     otherwise case name of "binelek_ai_analyze_entity" then
       (props <- destructure "entityId" args ;;
        let entityId := Js.assoc "entityId" props in
        let analysisType := Js.assoc "analysisType" props in
        result <- Gateway.analyzeEntity adapter gateway
                    entityId analysisType ;;
        ret (text_result (JSON.pretty 2 0 result)))
     otherwise unknown_tool name)
    on_error.

(** *** tools/pipeline.ts *)

Definition pipeline_tools : list string :=
  ["binelek_list_pipelines"; "binelek_get_pipeline";
   "binelek_trigger_pipeline"; "binelek_get_pipeline_runs"].

Definition registerPipelineTools (request : CallToolRequest)
  : M ToolResult :=
  let name := name request in
  let args := arguments request in
  try_catch
    (case name of "binelek_list_pipelines" then
       (result <- Gateway.listPipelines adapter gateway ;;
        ret (text_result (JSON.pretty 2 0 result)))
     otherwise case name of "binelek_get_pipeline" then
       (props <- destructure "pipelineId" args ;;
        let pipelineId := Js.assoc "pipelineId" props in
        result <- Gateway.getPipeline adapter gateway pipelineId ;;
        ret (text_result (JSON.pretty 2 0 result)))
     otherwise case name of "binelek_trigger_pipeline" then
       (props <- destructure "pipelineId" args ;;
        let pipelineId := Js.assoc "pipelineId" props in
        let parameters := Js.assoc "parameters" props in
        result <- Gateway.triggerPipeline adapter gateway
                    pipelineId parameters ;;
        ret (text_result ("Pipeline triggered successfully:"
                            ++ JSON.newline ++ JSON.pretty 2 0 result)))
     otherwise case name of "binelek_get_pipeline_runs" then
       (props <- destructure "pipelineId" args ;;
        let pipelineId := Js.assoc "pipelineId" props in
        result <- Gateway.getPipelineRuns adapter gateway pipelineId ;;
        ret (text_result (JSON.pretty 2 0 result)))
     otherwise unknown_tool name)
    on_error.

(** *** tools/admin.ts *)

Definition admin_tools : list string :=
  ["binelek_list_domains"; "binelek_get_domain";
   "binelek_get_ontology_schema"; "binelek_validate_yaml";
   "binelek_generate_code"].

Definition registerAdminTools (request : CallToolRequest)
  : M ToolResult :=
  let name := name request in
  let args := arguments request in
  try_catch
    (case name of "binelek_list_domains" then
       (result <- Gateway.listDomains adapter gateway ;;
        ret (text_result (JSON.pretty 2 0 result)))
     otherwise case name of "binelek_get_domain" then
       (props <- destructure "domainName" args ;;
        let domainName := Js.assoc "domainName" props in
        result <- Gateway.getDomainConfig adapter gateway domainName ;;
        ret (text_result (JSON.pretty 2 0 result)))
     otherwise case name of "binelek_get_ontology_schema" then
       (props <- destructure "domainName" args ;;
        let domainName := Js.assoc "domainName" props in
        result <- Gateway.getOntologySchema adapter gateway domainName ;;
        ret (text_result (JSON.pretty 2 0 result)))
     otherwise case name of "binelek_validate_yaml" then
       (props <- destructure "yamlContent" args ;;
        let yamlContent := Js.assoc "yamlContent" props in
        result <- Gateway.validateYaml adapter gateway yamlContent ;;
        valid <- field "valid" result ;;
        if Js.truthy valid
        then ret (text_result (check_mark ++ " YAML is valid"
                                 ++ JSON.newline
                                 ++ JSON.pretty 2 0 result))
        else
          (errors <- field "errors" result ;;
           ret (text_result (cross_mark ++ " YAML validation failed:"
                               ++ JSON.newline
                               ++ interpolate (JSON.stringify2 errors)))))
     otherwise case name of "binelek_generate_code" then
       (props <- destructure "yamlContent" args ;;
        let yamlContent := Js.assoc "yamlContent" props in
        let targetLanguage := Js.assoc "targetLanguage" props in
        result <- Gateway.generateCode adapter gateway
                    yamlContent targetLanguage ;;
        ret (text_result ("Code generated successfully:" ++ JSON.newline
                            ++ JSON.pretty 2 0 result)))
     otherwise unknown_tool name)
    on_error.

End Tools.

(** ** The five groups side by side *)

Inductive Group : Type := Ontology | Search | AI | Pipeline | Admin.

Definition declared (g : Group) : list string :=
  match g with
  | Ontology => ontology_tools
  | Search => search_tools
  | AI => ai_tools
  | Pipeline => pipeline_tools
  | Admin => admin_tools
  end.

Definition dispatch (adapter : Request -> Exchange) (gateway : Gateway.t)
           (g : Group) (request : CallToolRequest) : M ToolResult :=
  match g with
  | Ontology => registerOntologyTools adapter gateway request
  | Search => registerSearchTools adapter gateway request
  | AI => registerAITools adapter gateway request
  | Pipeline => registerPipelineTools adapter gateway request
  | Admin => registerAdminTools adapter gateway request
  end.

(** The client method that a tool name stands for, applied to the
    properties [p] of the arguments: the table read off the [case]
    labels of the five handlers. *)
Definition method_of (toolName : string) (p : list (string * json))
  : option Gateway.Call :=
  let arg k := Js.assoc k p in
  Js.assoc toolName
    [("binelek_get_entity", Gateway.GetEntity (arg "entityId"));
     ("binelek_query_entities",
      Gateway.QueryEntities (arg "cypherQuery") (arg "parameters"));
     ("binelek_create_entity",
      Gateway.CreateEntity (arg "entityType") (arg "attributes"));
     ("binelek_update_entity",
      Gateway.UpdateEntity (arg "entityId") (arg "attributes"));
     ("binelek_delete_entity", Gateway.DeleteEntity (arg "entityId"));
     ("binelek_get_relationships",
      Gateway.GetRelationships (arg "entityId"));
     ("binelek_create_relationship",
      Gateway.CreateRelationship (arg "sourceId") (arg "targetId")
        (arg "relationshipType") (arg "properties"));
     ("binelek_semantic_search",
      Gateway.SemanticSearch (arg "query") (arg "entityTypes") (arg "limit"));
     ("binelek_keyword_search",
      Gateway.KeywordSearch (arg "query") (arg "filters") (arg "limit"));
     ("binelek_hybrid_search",
      Gateway.HybridSearch (arg "query") (Some (JObj p)));
     ("binelek_ai_chat", Gateway.Chat (arg "message") (arg "context"));
     ("binelek_ai_predict", Gateway.Predict (arg "modelType") (arg "input"));
     ("binelek_ai_analyze_entity",
      Gateway.AnalyzeEntity (arg "entityId") (arg "analysisType"));
     ("binelek_list_pipelines", Gateway.ListPipelines);
     ("binelek_get_pipeline", Gateway.GetPipeline (arg "pipelineId"));
     ("binelek_trigger_pipeline",
      Gateway.TriggerPipeline (arg "pipelineId") (arg "parameters"));
     ("binelek_get_pipeline_runs",
      Gateway.GetPipelineRuns (arg "pipelineId"));
     ("binelek_list_domains", Gateway.ListDomains);
     ("binelek_get_domain", Gateway.GetDomainConfig (arg "domainName"));
     ("binelek_get_ontology_schema",
      Gateway.GetOntologySchema (arg "domainName"));
     ("binelek_validate_yaml", Gateway.ValidateYaml (arg "yamlContent"));
     ("binelek_generate_code",
      Gateway.GenerateCode (arg "yamlContent") (arg "targetLanguage"))].

Definition mem (s : string) (l : list string) : bool :=
  existsb (String.eqb s) l.

(** The call that group [g] makes for [request], if it makes one: the
    name must be declared by the group, and the arguments must be there
    unless the tool takes none. *)
Definition invoked (g : Group) (request : CallToolRequest)
  : option Gateway.Call :=
  if mem (name request) (declared g) then
    match arguments request with
    | Some p => method_of (name request) p
    | None =>
        if mem (name request)
               ["binelek_list_pipelines"; "binelek_list_domains"]
        then method_of (name request) []
        else None
    end
  else None.

(** ** Reading headers and texts *)

Definition lower_ascii (c : ascii) : ascii :=
  let n := nat_of_ascii c in
  if (Nat.leb 65 n && Nat.leb n 90)%bool then ascii_of_nat (n + 32) else c.

Fixpoint lower (s : string) : string :=
  match s with
  | EmptyString => EmptyString
  | String c tl => String (lower_ascii c) (lower tl)
  end.

(** Header names compare without regard to case. [has_header] tells
    whether the name is bound at all, [header] reads its value. *)
Fixpoint has_header (k : string) (hs : list (string * option string)) : bool :=
  match hs with
  | [] => false
  | (k', _) :: tl => String.eqb (lower k) (lower k') || has_header k tl
  end.

Fixpoint header (k : string) (hs : list (string * option string))
  : option string :=
  match hs with
  | [] => None
  | (k', v) :: tl => if String.eqb (lower k) (lower k') then v else header k tl
  end.

(** [s] occurs in [t]. *)
Definition contains (s t : string) : Prop :=
  exists before after, t = before ++ s ++ after.

(** [t] starts with [s]. *)
Definition starts_with (s t : string) : Prop :=
  exists rest, t = s ++ rest.

(** The three failures that leave the client. *)
Inductive ClientFailure : JsError -> Prop :=
| UpstreamError (r : Response) :
    ClientFailure
      (Error ("API Error (" ++ Js.string_of_Z (status r) ++ "): "
                ++ JSON.compact (data r)))
| UnreachableError :
    ClientFailure (Error "No response from API Gateway. Is it running?")
| RequestError (m : string) :
    ClientFailure (Error ("Request failed: " ++ m)).

(** A gateway that answers every request with the same response, and
    the client of the default configuration of [index.ts]. *)
Definition always (st : Z) (body : json) : Request -> Exchange :=
  fun _ => Responded (mkResponse st body).

Definition sample_config : GatewayConfig :=
  mkConfig (Some "http://localhost:8092") None (Some "core") None.

Definition sample_client : Gateway.t :=
  Gateway.mkClient
    (Axios.mkInstance (Some "http://localhost:8092")
       [("X-Tenant-Id", Some "core");
        ("Content-Type", Some "application/json")]
       30000 (fun status => status <? 500))
    (Some "core").

(** ** Auxiliary definitions for the statements *)

(** What every method but [getEntity] does with its one request. *)
Definition forward (adapter : Request -> Exchange)
           (inst : Axios.Instance) (m : Method) (url : string) (d : Body)
  : M json :=
  try_catch
    (response <- Axios.send adapter inst m url d ;; ret (data response))
    Gateway.handleError.


(** The request a call sends, read off the method bodies. *)
Definition outbound (this : Gateway.t) (c : Gateway.Call) : Request :=
  let inst := Gateway.client this in
  let id v := Js.to_string v in
  match c with
  | Gateway.HealthCheck => Axios.merge inst GET "/health" NoBody
  | Gateway.GetEntity e =>
      Axios.merge inst GET ("/api/ontology/entities/" ++ id e) NoBody
  | Gateway.QueryEntities q p =>
      Axios.merge inst POST "/api/ontology/query"
        (ObjectLiteral [("query", q);
                        ("parameters", Some (Js.or_else p (JObj [])))])
  | Gateway.CreateEntity ty a =>
      Axios.merge inst POST "/api/ontology/entities"
        (ObjectLiteral [("type", ty); ("attributes", a);
                        ("tenantId",
                         option_map JStr (Gateway.tenantId this))])
  | Gateway.UpdateEntity e a =>
      Axios.merge inst PUT ("/api/ontology/entities/" ++ id e)
        (ObjectLiteral [("attributes", a)])
  | Gateway.DeleteEntity e =>
      Axios.merge inst DELETE ("/api/ontology/entities/" ++ id e) NoBody
  | Gateway.GetRelationships e =>
      Axios.merge inst GET
        ("/api/ontology/entities/" ++ id e ++ "/relationships") NoBody
  | Gateway.CreateRelationship s t ty p =>
      Axios.merge inst POST "/api/ontology/relationships"
        (ObjectLiteral [("sourceId", s); ("targetId", t); ("type", ty);
                        ("properties", Some (Js.or_else p (JObj [])))])
  | Gateway.SemanticSearch q ts l =>
      Axios.merge inst POST "/api/search/semantic"
        (ObjectLiteral [("query", q); ("entityTypes", ts);
                        ("limit", Gateway.default_param l (JNum 10))])
  | Gateway.KeywordSearch q f l =>
      Axios.merge inst POST "/api/search/keyword"
        (ObjectLiteral [("query", q); ("filters", f);
                        ("limit", Gateway.default_param l (JNum 10))])
  | Gateway.HybridSearch q o =>
      Axios.merge inst POST "/api/search/hybrid"
        (ObjectLiteral (Js.spread [("query", q)] o))
  | Gateway.Predict mt i =>
      Axios.merge inst POST "/api/ai/predict"
        (ObjectLiteral [("modelType", mt); ("input", i)])
  | Gateway.Chat m ctx =>
      Axios.merge inst POST "/api/ai/chat"
        (ObjectLiteral [("message", m);
                        ("context", Some (Js.or_else ctx (JArr [])))])
  | Gateway.AnalyzeEntity e a =>
      Axios.merge inst POST "/api/ai/analyze"
        (ObjectLiteral [("entityId", e); ("analysisType", a)])
  | Gateway.ListPipelines =>
      Axios.merge inst GET "/api/pipeline/pipelines" NoBody
  | Gateway.GetPipeline p =>
      Axios.merge inst GET ("/api/pipeline/pipelines/" ++ id p) NoBody
  | Gateway.TriggerPipeline p ps =>
      Axios.merge inst POST
        ("/api/pipeline/pipelines/" ++ id p ++ "/trigger")
        (Payload (Js.or_else ps (JObj [])))
  | Gateway.GetPipelineRuns p =>
      Axios.merge inst GET
        ("/api/pipeline/pipelines/" ++ id p ++ "/runs") NoBody
  | Gateway.ListDomains => Axios.merge inst GET "/api/domains" NoBody
  | Gateway.GetDomainConfig d =>
      Axios.merge inst GET ("/api/domains/" ++ id d) NoBody
  | Gateway.GetOntologySchema d =>
      Axios.merge inst GET ("/api/domains/" ++ id d ++ "/ontology") NoBody
  | Gateway.ValidateYaml y =>
      Axios.merge inst POST "/api/regen/validate"
        (ObjectLiteral [("yaml", y)])
  | Gateway.GenerateCode y l =>
      Axios.merge inst POST "/api/regen/generate"
        (ObjectLiteral [("yaml", y); ("language", l)])
  end.

(** The exchange at the end of a chain of redirects. *)
Fixpoint final (x : Exchange) : Exchange :=
  match x with
  | Redirected _ _ next => final next
  | _ => x
  end.

Definition is_getEntity (c : Gateway.Call) : bool :=
  match c with
  | Gateway.GetEntity _ => true
  | _ => false
  end.


Definition is_createEntity (c : Gateway.Call) : bool :=
  match c with
  | Gateway.CreateEntity _ _ => true
  | _ => false
  end.


(** A result with one text block whose [isError] is absent or [true]. *)
Definition well_formed (r : ToolResult) : Prop :=
  exists t, r = text_result t \/ r = error_result t.


(** ** Bootstrap: index.ts *)

(** [process.env], for the three variables that [index.ts] reads, after
    [dotenv.config()]. *)
Record Env : Type := mkEnv {
  BINELEK_GATEWAY_URL : option string;
  BINELEK_JWT_TOKEN : option string;
  BINELEK_TENANT_ID : option string
}.

(** [v || d] for a string [v] that may be [undefined]. *)
Definition string_or (v : option string) (d : string) : string :=
  match v with
  | Some s => if String.eqb s "" then d else s
  | None => d
  end.

Definition GATEWAY_URL (env : Env) : string :=
  string_or (BINELEK_GATEWAY_URL env) "http://localhost:8092".
Definition JWT_TOKEN (env : Env) : option string := BINELEK_JWT_TOKEN env.
Definition TENANT_ID (env : Env) : string :=
  string_or (BINELEK_TENANT_ID env) "core".

(** The object literal given to [new BinelekGatewayClient]; it has no
    [timeout]. *)
Definition startup_config (env : Env) : GatewayConfig :=
  mkConfig (Some (GATEWAY_URL env)) (JWT_TOKEN env) (Some (TENANT_ID env))
    None.

(** A handler for tool calls; its first argument is what the network does
    while the call runs. *)
Definition CallToolHandler : Type :=
  (Request -> Exchange) -> CallToolRequest -> M ToolResult.

(** The protocol server, as far as [index.ts] relies on it: it keeps one
    handler for each request schema, and [setRequestHandler] puts the
    given handler in the place of the one set before for that schema. *)
Record Server : Type := mkServer {
  callTool : option CallToolHandler;
  listTools : bool
}.

Definition setCallToolHandler (h : CallToolHandler) (s : Server) : Server :=
  mkServer (Some h) (listTools s).

Definition setListToolsHandler (s : Server) : Server :=
  mkServer (callTool s) true.

(** The server together with the array [allTools] that the five groups
    push their descriptors on; a descriptor is kept by its name. *)
Record Registry : Type := mkRegistry {
  server : Server;
  allTools : list string
}.

(** What [register<Group>Tools(server, gateway, allTools)] does:
    [allTools.push(...tools)] and
    [server.setRequestHandler(CallToolRequestSchema, ...)]. *)
Definition register (gateway : Gateway.t) (g : Group) (st : Registry)
  : Registry :=
  mkRegistry
    (setCallToolHandler (fun adapter => dispatch adapter gateway g)
       (server st))
    (allTools st ++ declared g)%list.

(** [main], up to [server.connect(transport)]. *)
Definition main (adapter : Request -> Exchange) (env : Env) : M Registry :=
  gateway <- Gateway.constructor (startup_config env) ;;
  _ <- try_catch (_ <- Gateway.healthCheck adapter gateway ;; ret tt)
         (fun error => ret tt) ;;
  let st := mkRegistry (mkServer None false) [] in
  let st := register gateway Ontology st in
  let st := register gateway Search st in
  let st := register gateway AI st in
  let st := register gateway Pipeline st in
  let st := register gateway Admin st in
  ret (mkRegistry (setListToolsHandler (server st)) (allTools st)).

(** The answer to a [tools/list] request: the handler returns the array
    as it is when called. *)
Definition list_tools (st : Registry) : option (list string) :=
  if listTools (server st) then Some (allTools st) else None.

(** The answer to a [tools/call] request, if a handler is set. *)
Definition call_tool (adapter : Request -> Exchange) (st : Registry)
           (request : CallToolRequest) : option (M ToolResult) :=
  option_map (fun h => h adapter request) (callTool (server st)).

(** ** Tables read off the handlers *)

(** The properties of the arguments that the handler of a tool reads;
    [binelek_hybrid_search], which hands over the whole object, is not
    in the table. *)
Definition reads (toolName : string) : option (list string) :=
  Js.assoc toolName
    [("binelek_get_entity", ["entityId"]);
     ("binelek_query_entities", ["cypherQuery"; "parameters"]);
     ("binelek_create_entity", ["entityType"; "attributes"]);
     ("binelek_update_entity", ["entityId"; "attributes"]);
     ("binelek_delete_entity", ["entityId"]);
     ("binelek_get_relationships", ["entityId"]);
     ("binelek_create_relationship",
      ["sourceId"; "targetId"; "relationshipType"; "properties"]);
     ("binelek_semantic_search", ["query"; "entityTypes"; "limit"]);
     ("binelek_keyword_search", ["query"; "filters"; "limit"]);
     ("binelek_ai_chat", ["message"; "context"]);
     ("binelek_ai_predict", ["modelType"; "input"]);
     ("binelek_ai_analyze_entity", ["entityId"; "analysisType"]);
     ("binelek_list_pipelines", []);
     ("binelek_get_pipeline", ["pipelineId"]);
     ("binelek_trigger_pipeline", ["pipelineId"; "parameters"]);
     ("binelek_get_pipeline_runs", ["pipelineId"]);
     ("binelek_list_domains", []);
     ("binelek_get_domain", ["domainName"]);
     ("binelek_get_ontology_schema", ["domainName"]);
     ("binelek_validate_yaml", ["yamlContent"]);
     ("binelek_generate_code", ["yamlContent"; "targetLanguage"])].

(** The text that a tool puts before the serialized body on success, for
    the tools whose text is that line and the body. The tools
    [binelek_delete_entity], [binelek_ai_chat] and [binelek_validate_yaml]
    format their text otherwise. *)
Definition confirmation (toolName : string) : option string :=
  Js.assoc toolName
    [("binelek_get_entity", "");
     ("binelek_query_entities", "");
     ("binelek_create_entity", "Entity created successfully:" ++ JSON.newline);
     ("binelek_update_entity", "Entity updated successfully:" ++ JSON.newline);
     ("binelek_get_relationships", "");
     ("binelek_create_relationship",
      "Relationship created successfully:" ++ JSON.newline);
     ("binelek_semantic_search", "");
     ("binelek_keyword_search", "");
     ("binelek_hybrid_search", "");
     ("binelek_ai_predict", "");
     ("binelek_ai_analyze_entity", "");
     ("binelek_list_pipelines", "");
     ("binelek_get_pipeline", "");
     ("binelek_trigger_pipeline",
      "Pipeline triggered successfully:" ++ JSON.newline);
     ("binelek_get_pipeline_runs", "");
     ("binelek_list_domains", "");
     ("binelek_get_domain", "");
     ("binelek_get_ontology_schema", "");
     ("binelek_generate_code", "Code generated successfully:" ++ JSON.newline)].

(** The tools whose handler does not touch the arguments. *)
Definition takes_no_input (toolName : string) : bool :=
  mem toolName ["binelek_list_pipelines"; "binelek_list_domains"].

(** The message of the TypeError that the runtime (V8) raises when the
    handler of a tool destructures, or reads, arguments that are
    [undefined]. *)
Definition missing_arguments_message (toolName : string) : string :=
  match reads toolName with
  | Some (k :: _) =>
      "Cannot destructure property '" ++ k
        ++ "' of 'args' as it is undefined."
  | _ => "Cannot read properties of undefined (reading 'query')"
  end.

(** Two argument objects agree on the properties [ks]. *)
Definition agree (ks : list string) (p q : list (string * json)) : Prop :=
  forall k, In k ks -> Js.assoc k p = Js.assoc k q.

(** The group that declares a tool name, if any. *)
Definition owner (toolName : string) : option Group :=
  find (fun g => mem toolName (declared g))
       [Ontology; Search; AI; Pipeline; Admin].

(** * Properties *)

(** ** Serialization on examples *)

Example stringify2_object :
  JSON.stringify2 (Some (JObj [("valid", JBool false);
                               ("errors", JArr [JStr "a"; JNum 404])]))
  = Some ("{" ++ JSON.newline ++ "  " ++ JSON.quote "valid" ++ ": false,"
              ++ JSON.newline ++ "  " ++ JSON.quote "errors" ++ ": ["
              ++ JSON.newline ++ "    " ++ JSON.quote "a" ++ ","
              ++ JSON.newline ++ "    404"
              ++ JSON.newline ++ "  ]"
              ++ JSON.newline ++ "}").
Proof. reflexivity. Qed.

Example stringify_compact :
  JSON.stringify (Some (JObj [("k", JArr [JNull; JStr "x"])]))
  = Some ("{" ++ JSON.quote "k" ++ ":[null," ++ JSON.quote "x" ++ "]}").
Proof. reflexivity. Qed.

(** ** The handlers on examples *)

Example get_entity_404 :
  outcome (dispatch (always 404 JNull) sample_client Ontology
             (mkCall "binelek_get_entity" (Some [("entityId", JStr "prop_123")])))
  = inr (error_result "Error: Request failed: Entity not found: prop_123").
Proof. reflexivity. Qed.

Example delete_entity_confirmation :
  outcome (dispatch (always 200 (JObj [("deleted", JBool true)]))
             sample_client Ontology
             (mkCall "binelek_delete_entity" (Some [("entityId", JStr "e1")])))
  = inr (text_result "Entity e1 deleted successfully").
Proof. reflexivity. Qed.

Example chat_text_passes_through :
  outcome (dispatch (always 200 (JStr "hello")) sample_client AI
             (mkCall "binelek_ai_chat" (Some [("message", JStr "hi")])))
  = inr (text_result "hello").
Proof. reflexivity. Qed.

Example missing_arguments_are_caught :
  dispatch (always 200 JNull) sample_client Pipeline
    (mkCall "binelek_get_pipeline" None)
  = (inr (error_result
            "Error: Cannot destructure property 'pipelineId' of 'args' as it is undefined."),
     []).
Proof. reflexivity. Qed.

Example hybrid_search_body :
  sent (dispatch (always 200 JNull) sample_client Search
          (mkCall "binelek_hybrid_search"
             (Some [("query", JStr "q"); ("limit", JNum 5)])))
  = [mkRequest POST (Some "http://localhost:8092") "/api/search/hybrid"
       [("X-Tenant-Id", Some "core");
        ("Content-Type", Some "application/json")]
       (ObjectLiteral [("query", Some (JStr "q")); ("limit", Some (JNum 5))])
       30000].
Proof. reflexivity. Qed.

Example bearer_header :
  Gateway.constructor
    (mkConfig (Some "http://gw") (Some "abc") (Some "acme") (Some 5000))
  = ret (Gateway.mkClient
           (Axios.mkInstance (Some "http://gw")
              [("X-Tenant-Id", Some "acme");
               ("Content-Type", Some "application/json");
               ("Authorization", Some "Bearer abc")]
              5000 (fun status => status <? 500))
           (Some "acme")).
Proof. reflexivity. Qed.

Example sample_client_is_constructed :
  Gateway.constructor sample_config = ret sample_client.
Proof. reflexivity. Qed.

(** ** Shape of the client methods *)

Section MethodShape.
Variable adapter : Request -> Exchange.

Lemma forward_sent inst m url d :
  sent (forward adapter inst m url d) = [Axios.merge inst m url d].
Proof.
  unfold forward, try_catch, bind, Axios.send, sent; simpl.
  destruct (Axios.interceptor _) as [e | r]; simpl.
  - unfold Gateway.handleError.
    destruct (response e); [reflexivity|].
    destruct (request e); reflexivity.
  - reflexivity.
Qed.

Lemma forward_outcome inst m url d :
  outcome (forward adapter inst m url d)
  = match Axios.settle inst (adapter (Axios.merge inst m url d)) with
    | inr r => inr (data r)
    | inl e => outcome (@Gateway.handleError json e)
    end.
Proof.
  unfold forward, try_catch, bind, Axios.send, outcome; simpl.
  unfold Axios.interceptor.
  destruct (Axios.settle _ _) as [e | r]; simpl; [|reflexivity].
  destruct (Gateway.handleError e); reflexivity.
Qed.

Lemma getEntity_sent this entityId :
  sent (Gateway.getEntity adapter this entityId)
  = [Axios.merge (Gateway.client this) GET
       ("/api/ontology/entities/" ++ Js.to_string entityId) NoBody].
Proof.
  unfold Gateway.getEntity, try_catch, bind, Axios.get, Axios.send, sent.
  simpl.
  destruct (Axios.interceptor _) as [e | r]; simpl.
  - unfold Gateway.handleError.
    destruct (response e); [reflexivity|].
    destruct (request e); reflexivity.
  - destruct (status r =? 404); reflexivity.
Qed.

Lemma getEntity_outcome this entityId :
  outcome (Gateway.getEntity adapter this entityId)
  = match Axios.settle (Gateway.client this)
            (adapter (Axios.merge (Gateway.client this) GET
                        ("/api/ontology/entities/"
                           ++ Js.to_string entityId) NoBody)) with
    | inr r =>
        if status r =? 404
        then inl (Error ("Request failed: Entity not found: "
                           ++ Js.to_string entityId))
        else inr (data r)
    | inl e => outcome (@Gateway.handleError json e)
    end.
Proof.
  unfold Gateway.getEntity, try_catch, bind, Axios.get, Axios.send, outcome.
  simpl. unfold Axios.interceptor.
  destruct (Axios.settle _ _) as [e | r]; simpl.
  - destruct (Gateway.handleError e); reflexivity.
  - destruct (status r =? 404); reflexivity.
Qed.

(** Every method sends exactly one request, the one of [outbound]. *)
Lemma invoke_sent this c :
  sent (Gateway.invoke adapter this c) = [outbound this c].
Proof.
  destruct c; simpl;
    first [ apply getEntity_sent
          | exact (forward_sent _ _ _ _) ].
Qed.

(** Every method but [getEntity] forwards the body of a settled
    response and hands a rejection to [handleError]. *)
Lemma invoke_outcome this c :
  is_getEntity c = false ->
  outcome (Gateway.invoke adapter this c)
  = match Axios.settle (Gateway.client this)
            (adapter (outbound this c)) with
    | inr r => inr (data r)
    | inl e => outcome (@Gateway.handleError json e)
    end.
Proof.
  destruct c; simpl; intros Hc; try discriminate;
    exact (forward_outcome _ _ _ _).
Qed.

End MethodShape.

(** ** Construction *)

Lemma constructor_returns (config : GatewayConfig) :
  Gateway.constructor config
  = ret (Gateway.mkClient
           (Axios.mkInstance (baseUrl config)
              (Gateway.with_token (token config)
                 [("X-Tenant-Id", tenantId config);
                  ("Content-Type", Some "application/json")])
              (Gateway.timeout_or_default (timeout config))
              (fun status => status <? 500))
           (tenantId config)).
Proof. destruct config; reflexivity. Qed.

Lemma constructor_inv (config : GatewayConfig) (gw : Gateway.t) :
  outcome (Gateway.constructor config) = inr gw ->
  Axios.validateStatus (Gateway.client gw) = (fun status => status <? 500)
  /\ Axios.headers (Gateway.client gw)
     = Gateway.with_token (token config)
         [("X-Tenant-Id", tenantId config);
          ("Content-Type", Some "application/json")]
  /\ Axios.baseURL (Gateway.client gw) = baseUrl config
  /\ Gateway.tenantId gw = tenantId config.
Proof.
  rewrite constructor_returns. unfold outcome, ret; simpl.
  intros H; injection H as <-. repeat split.
Qed.

(** C2, as the code has it: the constructor checks nothing. For every
    configuration, with or without [baseUrl] and [tenantId], it returns a
    client and sends no request; the two fields are required by the
    declared type of the configuration only. *)
Theorem constructor_never_rejects (config : GatewayConfig) :
  exists gw : Gateway.t,
    outcome (Gateway.constructor config) = inr gw
    /\ sent (Gateway.constructor config) = []
    /\ Axios.baseURL (Gateway.client gw) = baseUrl config
    /\ Gateway.tenantId gw = tenantId config.
Proof.
  rewrite constructor_returns. eexists; repeat split.
Qed.

(** C2, as stated, fails: a configuration with neither [baseUrl] nor
    [tenantId] is accepted, so construction does not fail on it. *)
Lemma constructor_accepts_missing_fields :
  let config := mkConfig None None None None in
  baseUrl config = None /\ tenantId config = None
  /\ ~ (exists e, outcome (Gateway.constructor config) = inl e)
  /\ exists gw, outcome (Gateway.constructor config) = inr gw.
Proof.
  cbv zeta. repeat split.
  - intros [e H]. discriminate H.
  - eexists. reflexivity.
Qed.

(** ** Headers of outbound requests *)

Lemma sent_headers adapter this c rq :
  In rq (sent (Gateway.invoke adapter this c)) ->
  req_headers rq = Axios.headers (Gateway.client this)
  /\ req_baseURL rq = Axios.baseURL (Gateway.client this).
Proof.
  rewrite invoke_sent. intros [<- | []].
  destruct c; split; reflexivity.
Qed.

Lemma with_token_headers (tok : option string) (tenant : option string) :
  let hs := Gateway.with_token tok
              [("X-Tenant-Id", tenant);
               ("Content-Type", Some "application/json")] in
  header "x-tenant-id" hs = tenant
  /\ header "content-type" hs = Some "application/json"
  /\ match tok with
     | Some tk =>
         if String.eqb tk "" then has_header "authorization" hs = false
         else header "authorization" hs = Some ("Bearer " ++ tk)
              /\ has_header "authorization" hs = true
     | None => has_header "authorization" hs = false
     end.
Proof.
  cbv zeta. unfold Gateway.with_token.
  destruct tok as [tk|]; [destruct (String.eqb tk "") eqn:E|];
    repeat split; reflexivity.
Qed.

Lemma sent_tenant_header config gw adapter c rq :
  outcome (Gateway.constructor config) = inr gw ->
  In rq (sent (Gateway.invoke adapter gw c)) ->
  header "x-tenant-id" (req_headers rq) = tenantId config.
Proof.
  intros Hgw Hin.
  apply constructor_inv in Hgw as (_ & Hh & _ & _).
  apply sent_headers in Hin as [-> _]. rewrite Hh.
  apply with_token_headers.
Qed.

(** ** Failures leaving the client *)

Lemma handleError_outcome (A : Type) (e : JsError) :
  outcome (@Gateway.handleError A e)
  = inl (match response e with
         | Some r =>
             Error ("API Error (" ++ Js.string_of_Z (status r) ++ "): "
                      ++ JSON.compact (data r))
         | None =>
             if request e
             then Error "No response from API Gateway. Is it running?"
             else Error ("Request failed: " ++ message e)
         end).
Proof.
  unfold Gateway.handleError.
  destruct (response e); [reflexivity|].
  destruct (request e); reflexivity.
Qed.

Lemma settle_final inst x :
  Axios.settle inst x = Axios.settle inst (final x).
Proof. induction x; simpl; auto. Qed.

Lemma final_not_redirected x r location next :
  final x <> Redirected r location next.
Proof. induction x; simpl; auto; discriminate. Qed.

Lemma final_final x : final (final x) = final x.
Proof. induction x; simpl; auto. Qed.

(** The outcome of any method, by what became of its request. *)
Lemma invoke_cases adapter this c :
  outcome (Gateway.invoke adapter this c)
  = match final (adapter (outbound this c)) with
    | Responded r =>
        if status r <? 200
        then inl (Error "No response from API Gateway. Is it running?")
        else if Axios.validateStatus (Gateway.client this) (status r)
        then match c with
             | Gateway.GetEntity entityId =>
                 if status r =? 404
                 then inl (Error ("Request failed: Entity not found: "
                                    ++ Js.to_string entityId))
                 else inr (data r)
             | _ => inr (data r)
             end
        else inl (Error ("API Error (" ++ Js.string_of_Z (status r) ++ "): "
                           ++ JSON.compact (data r)))
    | Redirected _ _ _ | NoResponse _ =>
        inl (Error "No response from API Gateway. Is it running?")
    | NotSent m => inl (Error ("Request failed: " ++ m))
    end.
Proof.
  destruct (is_getEntity c) eqn:Hc.
  - destruct c; try discriminate Hc. simpl.
    rewrite getEntity_outcome, settle_final.
    destruct (final (adapter _)) as [r | r l n | m | m] eqn:E;
      try reflexivity.
    + simpl. destruct (status r <? 200); [reflexivity|].
      destruct (Axios.validateStatus _ _); reflexivity.
    + contradiction (final_not_redirected _ _ _ _ E).
  - rewrite invoke_outcome by assumption. rewrite settle_final.
    destruct (final (adapter _)) as [r | r l n | m | m] eqn:E;
      try reflexivity.
    + simpl. destruct (status r <? 200); [reflexivity|].
      destruct (Axios.validateStatus _ _);
        [destruct c; try discriminate Hc|]; reflexivity.
    + contradiction (final_not_redirected _ _ _ _ E).
Qed.

(** What became of the request decides the outcome; a redirect counts
    as what it ends in. *)
Lemma invoke_final adapter this c :
  outcome (Gateway.invoke adapter this c)
  = outcome (Gateway.invoke
               (fun _ => final (adapter (outbound this c))) this c).
Proof. rewrite !invoke_cases, final_final. reflexivity. Qed.

(** C5. Every error that a client method meets leaves it as a plain
    [Error] of one of three shapes, whichever method it is. A request
    without a response makes the method throw the fixed no-response
    message; a request that could not be sent makes it throw
    [Request failed: ...]; a final response whose status the instance
    rejects makes it throw the message with the status and the
    serialized body. When the status is accepted nothing is thrown,
    but for the 404 of [getEntity], which has the [Request failed: ...]
    shape. So whatever is thrown is one of the three, and never the
    error value of the HTTP library. *)
Theorem failures_are_normalized
        (adapter : Request -> Exchange) (gw : Gateway.t)
        (c : Gateway.Call) :
  match final (adapter (outbound gw c)) with
  | Responded r =>
      (status r < 200 ->
       outcome (Gateway.invoke adapter gw c)
       = inl (Error "No response from API Gateway. Is it running?"))
      /\ (200 <= status r ->
          Axios.validateStatus (Gateway.client gw) (status r) = false ->
          outcome (Gateway.invoke adapter gw c)
          = inl (Error ("API Error (" ++ Js.string_of_Z (status r) ++ "): "
                          ++ JSON.compact (data r))))
      /\ (200 <= status r ->
          Axios.validateStatus (Gateway.client gw) (status r) = true ->
          forall e,
            outcome (Gateway.invoke adapter gw c) = inl e ->
            exists entityId,
              c = Gateway.GetEntity entityId /\ status r = 404
              /\ e = Error ("Request failed: Entity not found: "
                              ++ Js.to_string entityId))
  | Redirected _ _ _ => False
  | NoResponse _ =>
      outcome (Gateway.invoke adapter gw c)
      = inl (Error "No response from API Gateway. Is it running?")
  | NotSent m =>
      outcome (Gateway.invoke adapter gw c)
      = inl (Error ("Request failed: " ++ m))
  end
  /\ forall e,
      outcome (Gateway.invoke adapter gw c) = inl e ->
      ClientFailure e /\ (forall m q r, e <> AxiosError m q r).
Proof.
  rewrite invoke_cases.
  destruct (final (adapter _)) as [r | r l n | m | m] eqn:E.
  - destruct (status r <? 200) eqn:Hlow.
    + apply Z.ltb_lt in Hlow. split.
      * split; [reflexivity|]. split; intros; lia.
      * intros e H; injection H as <-.
        split; [constructor | discriminate].
    + apply Z.ltb_ge in Hlow.
      destruct (Axios.validateStatus _ _) eqn:Hv.
      * split.
        -- split; [intros; lia|]. split; [discriminate|].
           intros _ _ e He. destruct c; try discriminate He.
           destruct (status r =? 404) eqn:E4; [|discriminate He].
           injection He as <-. apply Z.eqb_eq in E4. eauto.
        -- intros e He. destruct c; try discriminate He.
           destruct (status r =? 404); [|discriminate He].
           injection He as <-. split; [constructor | discriminate].
      * split.
        -- split; [intros; lia|]. split; [reflexivity | discriminate].
        -- intros e H; injection H as <-.
           split; [constructor | discriminate].
  - contradiction (final_not_redirected _ _ _ _ E).
  - split; [reflexivity|]. intros e H; injection H as <-.
    split; [constructor | discriminate].
  - split; [reflexivity|]. intros e H; injection H as <-.
    split; [constructor | discriminate].
Qed.

Lemma failures_are_normalized_witness :
  outcome (Gateway.invoke (always 503 (JStr "down")) sample_client
             Gateway.ListDomains)
  = inl (Error ("API Error (503): " ++ JSON.compact (JStr "down")))
  /\ ClientFailure
       (Error ("API Error (503): " ++ JSON.compact (JStr "down"))).
Proof.
  destruct (failures_are_normalized (always 503 (JStr "down")) sample_client
              Gateway.ListDomains) as ((_ & H & _) & Hall).
  assert (Hthrown :
            outcome (Gateway.invoke (always 503 (JStr "down")) sample_client
                       Gateway.ListDomains)
            = inl (Error ("API Error (503): " ++ JSON.compact (JStr "down")))).
  { apply H; [cbn; lia | reflexivity]. }
  split; [exact Hthrown | exact (proj1 (Hall _ Hthrown))].
Defined.

(** ** The status threshold *)

(** C6, as the code has it. For a constructed client and any method: a
    final response with status 500 or more makes the call throw (the
    upstream message); a final response with a status from 200 to 499
    makes it return the body as it is, except for [getEntity] with
    status 404; and a response with a [Location] header and a status
    from 300 to 399 is not returned at all: the HTTP library follows
    it, and the call ends as it would had the gateway answered with
    what the redirect ends in. *)
Theorem status_threshold
        (config : GatewayConfig) (gw : Gateway.t)
        (adapter : Request -> Exchange) (c : Gateway.Call) :
  outcome (Gateway.constructor config) = inr gw ->
  (forall st body,
      (forall rq, In rq (sent (Gateway.invoke adapter gw c)) ->
                  adapter rq = Responded (mkResponse st body)) ->
      (500 <= st ->
       outcome (Gateway.invoke adapter gw c)
       = inl (Error ("API Error (" ++ Js.string_of_Z st ++ "): "
                       ++ JSON.compact body)))
      /\ (200 <= st < 500 -> is_getEntity c = false \/ st <> 404 ->
          outcome (Gateway.invoke adapter gw c) = inr body))
  /\ (forall r location next,
         (forall rq, In rq (sent (Gateway.invoke adapter gw c)) ->
                     adapter rq = Redirected r location next) ->
         outcome (Gateway.invoke adapter gw c)
         = outcome (Gateway.invoke (fun _ => next) gw c)).
Proof.
  intros Hgw.
  apply constructor_inv in Hgw as (Hv & _). split.
  - intros st body Hnet.
    specialize (Hnet (outbound gw c)).
    rewrite invoke_sent in Hnet. specialize (Hnet (or_introl eq_refl)).
    rewrite invoke_cases, Hnet, Hv. simpl. split.
    + intros Hst.
      assert (Hlow : (st <? 200) = false) by (apply Z.ltb_ge; lia).
      apply Z.ltb_ge in Hst. rewrite Hlow, Hst. reflexivity.
    + intros [Hlo Hst] Hc.
      assert (Hlow : (st <? 200) = false) by (apply Z.ltb_ge; lia).
      apply Z.ltb_lt in Hst. rewrite Hlow, Hst.
      destruct c; try reflexivity.
      destruct Hc as [Hc | Hc]; [discriminate Hc|].
      apply Z.eqb_neq in Hc. rewrite Hc. reflexivity.
  - intros r location next Hnet.
    specialize (Hnet (outbound gw c)).
    rewrite invoke_sent in Hnet. specialize (Hnet (or_introl eq_refl)).
    rewrite (invoke_final adapter), (invoke_final (fun _ => next)), Hnet.
    reflexivity.
Qed.

Lemma status_threshold_witness :
  outcome (Gateway.invoke (always 403 (JObj [("error", JStr "forbidden")]))
             sample_client (Gateway.DeleteEntity (Some (JStr "e1"))))
  = inr (JObj [("error", JStr "forbidden")]).
Proof.
  apply (proj2 (proj1 (status_threshold sample_config sample_client
                         (always 403 (JObj [("error", JStr "forbidden")]))
                         (Gateway.DeleteEntity (Some (JStr "e1")))
                         eq_refl)
                  403 (JObj [("error", JStr "forbidden")])
                  (fun _ _ => eq_refl))).
  - lia.
  - left. reflexivity.
Defined.

(** C6, as stated, fails: a response with status 302, which lies between
    200 and 500, that carries a [Location] header is not returned to the
    caller. The call returns the body of the answer that the redirect
    ends in, and it throws when the redirect ends without a response. *)
Lemma redirect_is_not_returned :
  let moved := mkResponse 302 (JStr "moved") in
  let followed :=
    fun _ : Request =>
      Redirected moved "/api/v2/domains"
        (Responded (mkResponse 200 (JStr "final"))) in
  let lost :=
    fun _ : Request =>
      Redirected moved "/api/v2/domains" (NoResponse "socket hang up") in
  200 <= status moved < 500
  /\ outcome (Gateway.constructor sample_config) = inr sample_client
  /\ outcome (Gateway.invoke followed sample_client Gateway.ListDomains)
     = inr (JStr "final")
  /\ outcome (Gateway.invoke followed sample_client Gateway.ListDomains)
     <> inr (data moved)
  /\ outcome (Gateway.invoke lost sample_client Gateway.ListDomains)
     = inl (Error "No response from API Gateway. Is it running?").
Proof.
  cbv zeta. split; [cbn; lia|]. split; [reflexivity|].
  split; [reflexivity|]. split; [discriminate | reflexivity].
Qed.

(** ** Entity not found *)

Lemma append_empty_r (s : string) : s ++ "" = s.
Proof. induction s as [|c s IH]; simpl; [|rewrite IH]; reflexivity. Qed.

(** C3. When the gateway answers [getEntity] with status 404, the call
    throws; the message is [Request failed: Entity not found: <id>], so
    it contains the entity id, and it differs from every upstream
    message [API Error (<status>): <body>]. *)
Theorem getEntity_not_found
        (config : GatewayConfig) (gw : Gateway.t)
        (adapter : Request -> Exchange) (entityId : value) (body : json) :
  outcome (Gateway.constructor config) = inr gw ->
  (forall rq, In rq (sent (Gateway.getEntity adapter gw entityId)) ->
              adapter rq = Responded (mkResponse 404 body)) ->
  exists e,
    outcome (Gateway.getEntity adapter gw entityId) = inl e
    /\ message e
       = "Request failed: Entity not found: " ++ Js.to_string entityId
    /\ contains (Js.to_string entityId) (message e)
    /\ contains "Entity not found" (message e)
    /\ forall (st : Z) (b : string),
         message e <> "API Error (" ++ Js.string_of_Z st ++ "): " ++ b.
Proof.
  intros Hgw Hnet.
  apply constructor_inv in Hgw as (Hv & _).
  rewrite getEntity_sent in Hnet.
  specialize (Hnet _ (or_introl eq_refl)).
  rewrite getEntity_outcome. unfold Axios.settle.
  rewrite Hnet, Hv. simpl.
  eexists; split; [reflexivity|]. simpl. repeat split.
  - exists "Request failed: Entity not found: ", "".
    rewrite append_empty_r. reflexivity.
  - exists "Request failed: ", (": " ++ Js.to_string entityId). reflexivity.
  - intros st b H. discriminate H.
Qed.

Lemma getEntity_not_found_witness :
  exists e,
    outcome (Gateway.getEntity (always 404 JNull) sample_client
               (Some (JStr "prop_123"))) = inl e
    /\ message e = "Request failed: Entity not found: prop_123".
Proof.
  destruct (getEntity_not_found sample_config sample_client
              (always 404 JNull) (Some (JStr "prop_123")) JNull eq_refl
              (fun _ _ => eq_refl)) as (e & H1 & H2 & _).
  exists e. split; [exact H1 | exact H2].
Defined.

(** ** The tenant id in request bodies *)

(** C10, as the code has it. [createEntity] sends one request, a POST
    whose object body has a [tenantId] field. For a client built from a
    configuration with a tenant id the field is that tenant id, next to
    the [x-tenant-id] header; for a client built without one the field
    is [undefined]. No other method puts the tenant id in a body: the
    body of its request is the same for every client, and the method
    does not read the tenant id that the client keeps. *)
Theorem createEntity_carries_tenant
        (config : GatewayConfig) (gw : Gateway.t)
        (adapter : Request -> Exchange) :
  outcome (Gateway.constructor config) = inr gw ->
  (forall entityType attributes,
      exists rq fields,
        sent (Gateway.createEntity adapter gw entityType attributes) = [rq]
        /\ req_method rq = POST
        /\ req_url rq = "/api/ontology/entities"
        /\ req_data rq = ObjectLiteral fields
        /\ match tenantId config with
           | Some tenant =>
               Js.assoc "tenantId" fields = Some (Some (JStr tenant))
               /\ header "x-tenant-id" (req_headers rq) = Some tenant
           | None =>
               Js.assoc "tenantId" fields = Some None
               /\ header "x-tenant-id" (req_headers rq) = None
           end)
  /\ (forall c gw' adapter',
         is_createEntity c = false ->
         map req_data (sent (Gateway.invoke adapter gw c))
         = map req_data (sent (Gateway.invoke adapter' gw' c)))
  /\ (forall c other,
         is_createEntity c = false ->
         Gateway.invoke adapter
           (Gateway.mkClient (Gateway.client gw) other) c
         = Gateway.invoke adapter gw c).
Proof.
  intros Hgw. split; [|split].
  - intros entityType attributes.
    pose proof (invoke_sent adapter gw
                  (Gateway.CreateEntity entityType attributes)) as Hs.
    cbn [Gateway.invoke] in Hs.
    pose proof (sent_tenant_header config gw adapter
                  (Gateway.CreateEntity entityType attributes)
                  (outbound gw (Gateway.CreateEntity entityType attributes))
                  Hgw) as Hh.
    cbn [Gateway.invoke] in Hh. rewrite Hs in Hh.
    specialize (Hh (or_introl eq_refl)).
    apply constructor_inv in Hgw as (_ & _ & _ & Ht).
    do 2 eexists. split; [exact Hs|].
    split; [reflexivity|]. split; [reflexivity|]. split; [reflexivity|].
    rewrite Hh. cbn. rewrite Ht.
    destruct (tenantId config); split; reflexivity.
  - intros c gw' adapter' Hc. rewrite !invoke_sent.
    destruct c; try discriminate Hc; reflexivity.
  - intros c other Hc. destruct gw as [inst tid].
    destruct c; try discriminate Hc; reflexivity.
Qed.

Lemma createEntity_carries_tenant_witness :
  exists rq fields,
    sent (Gateway.createEntity (always 201 JNull) sample_client
            (Some (JStr "Property")) (Some (JObj []))) = [rq]
    /\ req_data rq = ObjectLiteral fields
    /\ Js.assoc "tenantId" fields = Some (Some (JStr "core"))
    /\ header "x-tenant-id" (req_headers rq) = Some "core".
Proof.
  destruct (proj1 (createEntity_carries_tenant sample_config sample_client
                     (always 201 JNull) eq_refl)
              (Some (JStr "Property")) (Some (JObj [])))
    as (rq & fields & Hs & _ & _ & Hd & Hf & Hh).
  exists rq, fields. repeat split; assumption.
Defined.

(** C10, as stated, fails: for a client constructed from a configuration
    without tenant id, the [tenantId] field of the body of
    [createEntity] is [undefined], so the body holds no tenant id. *)
Lemma tenantless_createEntity_has_no_tenant :
  let config := mkConfig (Some "http://localhost:8092") None None None in
  exists gw rq fields,
    outcome (Gateway.constructor config) = inr gw
    /\ sent (Gateway.createEntity (always 201 JNull) gw
               (Some (JStr "Property")) (Some (JObj []))) = [rq]
    /\ req_data rq = ObjectLiteral fields
    /\ Js.assoc "tenantId" fields = Some None
    /\ ~ (exists v, Js.assoc "tenantId" fields = Some (Some v)).
Proof.
  cbv zeta. do 3 eexists. split; [reflexivity|]. split; [reflexivity|].
  split; [reflexivity|]. split; [reflexivity|].
  intros [v H]. discriminate H.
Qed.

(** ** The dispatchers *)

Lemma outcome_bind (A B : Type) (m : M A) (f : A -> M B) :
  outcome (bind m f)
  = match outcome m with
    | inl e => inl e
    | inr a => outcome (f a)
    end.
Proof.
  unfold outcome, bind. destruct m as [[e | a] log]; simpl; [reflexivity|].
  destruct (f a); reflexivity.
Qed.

Lemma outcome_try_catch (A : Type) (m : M A) (h : JsError -> M A) :
  outcome (try_catch m h)
  = match outcome m with
    | inl e => outcome (h e)
    | inr a => inr a
    end.
Proof.
  unfold outcome, try_catch. destruct m as [[e | a] log]; simpl;
    [|reflexivity].
  destruct (h e); reflexivity.
Qed.

Lemma outcome_ret (A : Type) (a : A) : outcome (ret a) = inr a.
Proof. reflexivity. Qed.

Lemma outcome_throw (A : Type) (e : JsError) : outcome (@throw A e) = inl e.
Proof. reflexivity. Qed.

(** Whatever the [try] block does, the handler returns a result. *)
Lemma guarded_outcome (m : M ToolResult) :
  outcome (try_catch m on_error)
  = inr (match outcome m with
         | inl e => error_result ("Error: " ++ message e)
         | inr r => r
         end).
Proof.
  rewrite outcome_try_catch. destruct (outcome m); reflexivity.
Qed.

Lemma well_formed_text t : well_formed (text_result t).
Proof. exists t; left; reflexivity. Qed.

Lemma well_formed_error t : well_formed (error_result t).
Proof. exists t; right; reflexivity. Qed.

Create HintDb tools.
#[local] Hint Resolve well_formed_text well_formed_error : tools.

Ltac split_name n :=
  repeat match goal with
         | |- context [String.eqb n ?lit] =>
             destruct (String.eqb n lit) eqn:?
         end.

Lemma body_well_formed adapter gw g request :
  exists m : M ToolResult,
    dispatch adapter gw g request = try_catch m on_error
    /\ match outcome m with
       | inl _ => True
       | inr r => well_formed r
       end.
Proof.
  destruct request as [n args].
  destruct g; cbn [dispatch];
    unfold registerOntologyTools, registerSearchTools, registerAITools,
      registerPipelineTools, registerAdminTools;
    cbn [name arguments];
    (eexists; split; [reflexivity|]);
    split_name n;
    try (unfold unknown_tool; rewrite outcome_ret; auto with tools);
    destruct args as [p|];
    unfold destructure, member;
    rewrite ?outcome_bind, ?outcome_ret, ?outcome_throw; trivial;
    try (cbn [outcome]; rewrite ?outcome_bind;
         match goal with
         | |- context [outcome ?call] =>
             destruct (outcome call) as [e | j]; trivial
         end;
         rewrite ?outcome_bind, ?outcome_ret; auto with tools).
  all: unfold field; destruct (Js.get j "valid") as [valid|];
    rewrite ?outcome_bind, ?outcome_ret, ?outcome_throw; trivial;
    destruct (Js.truthy valid); rewrite ?outcome_ret; auto with tools;
    rewrite outcome_bind;
    destruct (Js.get j "errors"); rewrite ?outcome_ret, ?outcome_throw;
    auto with tools.
Qed.

(** C1, as stated, fails: a successful [binelek_list_pipelines] call
    returns a result without any [isError], so the field is neither
    [true] nor [false] there. *)
Lemma success_result_has_no_isError :
  let r := text_result "[]" in
  outcome (dispatch (always 200 (JArr [])) sample_client Pipeline
             (mkCall "binelek_list_pipelines" (Some [])))
  = inr r
  /\ isError r = None
  /\ ~ (exists b : bool, isError r = Some b).
Proof.
  cbv zeta. repeat split.
  intros [b H]. discriminate H.
Qed.

(** ** Failures of the client at the adapter boundary *)

Lemma declared_cases (g : Group) (n : string) :
  mem n (declared g) = true -> In n (declared g).
Proof.
  unfold mem. intros H. apply existsb_exists in H as (x & Hin & Heq).
  apply String.eqb_eq in Heq. subst x. exact Hin.
Qed.

Lemma dispatch_catches_call adapter gw g request c e :
  invoked g request = Some c ->
  outcome (Gateway.invoke adapter gw c) = inl e ->
  outcome (dispatch adapter gw g request)
  = inr (error_result ("Error: " ++ message e)).
Proof.
  destruct request as [n args]. unfold invoked. cbn [name arguments].
  destruct (mem n (declared g)) eqn:Hmem; [|discriminate].
  apply declared_cases in Hmem.
  destruct g; cbn in Hmem;
    repeat (destruct Hmem as [<- | Hmem]; [|]); try contradiction;
    (destruct args as [p|]; cbn; [|try discriminate]);
    intros Hc; injection Hc as <-; cbn [Gateway.invoke]; intros He;
    unfold dispatch, registerOntologyTools, registerSearchTools,
      registerAITools, registerPipelineTools, registerAdminTools;
    rewrite guarded_outcome;
    cbn [String.eqb Ascii.eqb Bool.eqb andb name arguments
         destructure member option_map];
    rewrite ?outcome_bind, ?outcome_ret; cbn iota beta;
    rewrite ?outcome_bind, ?He; reflexivity.
Qed.

(** The table [invoked] has an entry for every declared tool that is
    given arguments. *)
Lemma invoked_total g request p :
  mem (name request) (declared g) = true ->
  arguments request = Some p ->
  exists c, invoked g request = Some c.
Proof.
  destruct request as [n args]. cbn [name arguments].
  intros Hmem ->. unfold invoked. cbn [name arguments]. rewrite Hmem.
  apply declared_cases in Hmem.
  destruct g; cbn in Hmem;
    repeat (destruct Hmem as [<- | Hmem]; [|]); try contradiction;
    eexists; reflexivity.
Qed.

Lemma sent_bind (A B : Type) (m : M A) (f : A -> M B) :
  sent (bind m f)
  = match outcome m with
    | inl _ => sent m
    | inr a => (sent m ++ sent (f a))%list
    end.
Proof.
  unfold sent, outcome, bind. destruct m as [[e | a] log]; simpl;
    [reflexivity|].
  destruct (f a); reflexivity.
Qed.

Lemma sent_try_catch (A : Type) (m : M A) (h : JsError -> M A) :
  sent (try_catch m h)
  = match outcome m with
    | inl e => (sent m ++ sent (h e))%list
    | inr _ => sent m
    end.
Proof.
  unfold sent, outcome, try_catch. destruct m as [[e | a] log]; simpl;
    [|reflexivity].
  destruct (h e); reflexivity.
Qed.

(** The request a dispatcher sends is the one of the call in the table. *)
Lemma dispatch_sends adapter gw g request c :
  invoked g request = Some c ->
  sent (dispatch adapter gw g request) = sent (Gateway.invoke adapter gw c).
Proof.
  destruct request as [n args]. unfold invoked. cbn [name arguments].
  destruct (mem n (declared g)) eqn:Hmem; [|discriminate].
  apply declared_cases in Hmem.
  destruct g; cbn in Hmem;
    repeat (destruct Hmem as [<- | Hmem]; [|]); try contradiction;
    (destruct args as [p|]; cbn; [|try discriminate]);
    intros Hc; injection Hc as <-; cbn [Gateway.invoke];
    unfold dispatch, registerOntologyTools, registerSearchTools,
      registerAITools, registerPipelineTools, registerAdminTools;
    cbn [String.eqb Ascii.eqb Bool.eqb andb name arguments
         destructure member option_map];
    rewrite sent_try_catch, ?sent_bind, ?outcome_bind, ?outcome_ret;
    cbn iota beta;
    rewrite ?sent_bind, ?outcome_bind;
    match goal with
    | |- _ = sent ?call =>
        generalize (sent call) as log;
        destruct (outcome call) as [e | j]; intros log
    end;
    unfold field; cbn; rewrite ?app_nil_r; try reflexivity.
  all: destruct (Js.get j "valid") as [valid|]; cbn;
    rewrite ?app_nil_r; try reflexivity;
    destruct (Js.truthy valid); cbn; rewrite ?app_nil_r; try reflexivity;
    destruct (Js.get j "errors"); cbn; rewrite ?app_nil_r; reflexivity.
Qed.

(** C4. In every group, when the client method that the tool stands for
    throws, the dispatcher returns the result whose one text block is
    [Error: ] followed by the message of the failure, with [isError]
    true; and no call to a dispatcher ever ends in a thrown value. *)
Theorem dispatcher_catches_failures
        (adapter : Request -> Exchange) (gw : Gateway.t)
        (g : Group) (request : CallToolRequest) :
  (exists r, outcome (dispatch adapter gw g request) = inr r)
  /\ forall c e,
      invoked g request = Some c ->
      outcome (Gateway.invoke adapter gw c) = inl e ->
      outcome (dispatch adapter gw g request)
      = inr (mkResult [mkText "text" ("Error: " ++ message e)] (Some true)).
Proof.
  split.
  - destruct (body_well_formed adapter gw g request) as (m & -> & _).
    rewrite guarded_outcome. eexists; reflexivity.
  - intros c e Hc He. exact (dispatch_catches_call _ _ _ _ _ _ Hc He).
Qed.

Lemma dispatcher_catches_failures_witness :
  outcome (dispatch (fun _ => NoResponse "connect ECONNREFUSED")
             sample_client AI
             (mkCall "binelek_ai_chat" (Some [("message", JStr "hi")])))
  = inr (mkResult
           [mkText "text"
              "Error: No response from API Gateway. Is it running?"]
           (Some true)).
Proof.
  exact (proj2 (dispatcher_catches_failures
                  (fun _ => NoResponse "connect ECONNREFUSED")
                  sample_client AI
                  (mkCall "binelek_ai_chat" (Some [("message", JStr "hi")])))
           (Gateway.Chat (Some (JStr "hi")) None)
           (Error "No response from API Gateway. Is it running?")
           eq_refl eq_refl).
Defined.

(** ** Unknown tool names *)

Lemma mem_false_cons n x l :
  mem n (x :: l) = false -> String.eqb n x = false /\ mem n l = false.
Proof. unfold mem; simpl. apply orb_false_elim. Qed.

Lemma dispatch_unknown adapter gw g request :
  mem (name request) (declared g) = false ->
  dispatch adapter gw g request
  = (inr (error_result ("Unknown tool: " ++ name request)), []).
Proof.
  destruct request as [n args]. cbn [name]. intros H.
  destruct g; cbn [declared] in H;
    unfold ontology_tools, search_tools, ai_tools, pipeline_tools,
      admin_tools in H;
    repeat (apply mem_false_cons in H as [? H]);
    unfold dispatch, registerOntologyTools, registerSearchTools,
      registerAITools, registerPipelineTools, registerAdminTools;
    cbn [name arguments];
    repeat match goal with
           | E : String.eqb n _ = false |- _ => rewrite E; clear E
           end;
    reflexivity.
Qed.

(** C8. A call whose name is not declared by the group that receives it
    returns [Unknown tool: <name>] with [isError] true, and sends no
    request. *)
Theorem unknown_tool_is_flagged
        (adapter : Request -> Exchange) (gw : Gateway.t)
        (g : Group) (request : CallToolRequest) :
  mem (name request) (declared g) = false ->
  outcome (dispatch adapter gw g request)
  = inr (mkResult [mkText "text" ("Unknown tool: " ++ name request)]
           (Some true))
  /\ contains (name request) ("Unknown tool: " ++ name request)
  /\ sent (dispatch adapter gw g request) = [].
Proof.
  intros H. rewrite (dispatch_unknown adapter gw g request H).
  split; [reflexivity | split; [|reflexivity]].
  exists "Unknown tool: ", "". rewrite append_empty_r. reflexivity.
Qed.

Lemma unknown_tool_is_flagged_witness :
  outcome (dispatch (always 200 JNull) sample_client Search
             (mkCall "binelek_get_entity" (Some [("entityId", JStr "e1")])))
  = inr (mkResult [mkText "text" "Unknown tool: binelek_get_entity"]
           (Some true)).
Proof.
  exact (proj1 (unknown_tool_is_flagged (always 200 JNull) sample_client
                  Search
                  (mkCall "binelek_get_entity"
                     (Some [("entityId", JStr "e1")]))
                  eq_refl)).
Defined.

(** ** YAML validation *)

(** C9. When [validateYaml] returns a body whose [valid] is [true], the
    text is the check mark line followed by the whole body serialized;
    when [valid] is [false], the text is the cross mark line followed by
    the serialized [errors] of the body, and not by the body. *)
Theorem validate_yaml_report
        (adapter : Request -> Exchange) (gw : Gateway.t)
        (p : list (string * json)) (body : json) :
  outcome (Gateway.validateYaml adapter gw (Js.assoc "yamlContent" p))
  = inr body ->
  let reply :=
    outcome (dispatch adapter gw Admin
               (mkCall "binelek_validate_yaml" (Some p))) in
  (Js.get body "valid" = Some (Some (JBool true)) ->
   exists t,
     reply = inr (mkResult [mkText "text" t] None)
     /\ t = check_mark ++ " YAML is valid" ++ JSON.newline
              ++ JSON.pretty 2 0 body
     /\ starts_with check_mark t)
  /\ (forall errors,
         Js.get body "valid" = Some (Some (JBool false)) ->
         Js.get body "errors" = Some errors ->
         exists t,
           reply = inr (mkResult [mkText "text" t] None)
           /\ t = cross_mark ++ " YAML validation failed:" ++ JSON.newline
                    ++ interpolate (JSON.stringify2 errors)
           /\ starts_with cross_mark t
           /\ contains (interpolate (JSON.stringify2 errors)) t).
Proof.
  intros Hbody reply. subst reply.
  unfold dispatch, registerAdminTools.
  rewrite guarded_outcome.
  cbn [String.eqb Ascii.eqb Bool.eqb andb name arguments destructure].
  rewrite outcome_bind, outcome_ret. cbn iota beta.
  rewrite outcome_bind, Hbody. unfold field. split.
  - intros Hvalid. rewrite Hvalid, outcome_bind, outcome_ret.
    cbn [Js.truthy]. rewrite outcome_ret.
    eexists; split; [reflexivity|]. split; [reflexivity|].
    eexists; reflexivity.
  - intros errors Hvalid Herrors.
    rewrite Hvalid, outcome_bind, outcome_ret.
    cbn [Js.truthy]. rewrite outcome_bind, Herrors, !outcome_ret.
    eexists; split; [reflexivity|]. split; [reflexivity|]. split.
    + eexists; reflexivity.
    + exists (cross_mark ++ " YAML validation failed:" ++ JSON.newline), "".
      rewrite append_empty_r. reflexivity.
Qed.

Lemma validate_yaml_report_witness :
  outcome (dispatch
             (always 200 (JObj [("valid", JBool false);
                                ("errors", JArr [JStr "no entities"])]))
             sample_client Admin
             (mkCall "binelek_validate_yaml"
                (Some [("yamlContent", JStr "entities: []")])))
  = inr (mkResult
           [mkText "text"
              (cross_mark ++ " YAML validation failed:" ++ JSON.newline
                 ++ "[" ++ JSON.newline ++ "  "
                 ++ JSON.quote "no entities" ++ JSON.newline ++ "]")]
           None).
Proof.
  destruct (proj2 (validate_yaml_report
                     (always 200 (JObj [("valid", JBool false);
                                        ("errors",
                                         JArr [JStr "no entities"])]))
                     sample_client
                     [("yamlContent", JStr "entities: []")]
                     (JObj [("valid", JBool false);
                            ("errors", JArr [JStr "no entities"])])
                     eq_refl)
             (Some (JArr [JStr "no entities"])) eq_refl eq_refl)
    as (t & Hreply & Ht & _).
  rewrite Hreply, Ht. reflexivity.
Defined.

(** ** Headers of the requests of tool calls *)

Lemma dispatch_sends_nothing adapter gw g request :
  invoked g request = None ->
  sent (dispatch adapter gw g request) = [].
Proof.
  unfold invoked. destruct (mem (name request) (declared g)) eqn:Hmem.
  - destruct request as [n args]. cbn [name arguments] in *.
    apply declared_cases in Hmem.
    destruct g; cbn in Hmem;
      repeat (destruct Hmem as [<- | Hmem]; [|]); try contradiction;
      destruct args as [p|]; cbn; try discriminate; reflexivity.
  - intros _. rewrite (dispatch_unknown adapter gw g request Hmem).
    reflexivity.
Qed.

(** A request of a tool call is the request of a client method. *)
Lemma dispatch_requests adapter gw g request rq :
  In rq (sent (dispatch adapter gw g request)) ->
  exists c, In rq (sent (Gateway.invoke adapter gw c)).
Proof.
  destruct (invoked g request) as [c|] eqn:Hc.
  - rewrite (dispatch_sends adapter gw g request c Hc). eauto.
  - rewrite (dispatch_sends_nothing adapter gw g request Hc). intros [].
Qed.

(** C7, as the code has it. Every request that a constructed client
    sends, by a method called directly or on behalf of a tool call,
    carries [content-type: application/json]. It carries [x-tenant-id]
    with the configured tenant id when the configuration has one; a
    client built from a configuration without tenant id, which the
    constructor accepts, sends its requests with no value for that
    header. With a non-empty token a request carries
    [authorization: Bearer <token>]; with no token, or an empty one, no
    [authorization] header is bound at all. *)
Theorem outbound_headers
        (config : GatewayConfig) (gw : Gateway.t)
        (adapter : Request -> Exchange) (rq : Request) :
  outcome (Gateway.constructor config) = inr gw ->
  (exists c, In rq (sent (Gateway.invoke adapter gw c)))
  \/ (exists g request, In rq (sent (dispatch adapter gw g request))) ->
  match tenantId config with
  | Some tenant => header "x-tenant-id" (req_headers rq) = Some tenant
  | None => header "x-tenant-id" (req_headers rq) = None
  end
  /\ header "content-type" (req_headers rq) = Some "application/json"
  /\ match token config with
     | Some tk =>
         if String.eqb tk ""
         then has_header "authorization" (req_headers rq) = false
         else header "authorization" (req_headers rq) = Some ("Bearer " ++ tk)
              /\ has_header "authorization" (req_headers rq) = true
     | None => has_header "authorization" (req_headers rq) = false
     end.
Proof.
  intros Hgw Hin.
  assert (exists c, In rq (sent (Gateway.invoke adapter gw c)))
    as (c & Hc).
  { destruct Hin as [Hin | (g & request & Hin)]; [exact Hin|].
    exact (dispatch_requests _ _ _ _ _ Hin). }
  apply constructor_inv in Hgw as (_ & Hh & _ & _).
  apply sent_headers in Hc as [-> _]. rewrite Hh.
  destruct (with_token_headers (token config) (tenantId config))
    as (Ht & Hct & Htok).
  split; [|split; [exact Hct | exact Htok]].
  rewrite Ht. destruct (tenantId config); reflexivity.
Qed.

Lemma outbound_headers_witness :
  let rq := mkRequest GET (Some "http://localhost:8092") "/health"
              [("X-Tenant-Id", Some "core");
               ("Content-Type", Some "application/json")] NoBody 30000 in
  header "x-tenant-id" (req_headers rq) = Some "core"
  /\ header "content-type" (req_headers rq) = Some "application/json"
  /\ has_header "authorization" (req_headers rq) = false.
Proof.
  exact (outbound_headers sample_config sample_client (always 200 JNull) _
           eq_refl
           (or_introl (ex_intro _ Gateway.HealthCheck (or_introl eq_refl)))).
Defined.

(** C7, as stated, fails: a client constructed from a configuration
    without tenant id sends a request whose [x-tenant-id] has no value,
    so the request does not carry the header. *)
Lemma tenantless_client_sends_no_tenant_header :
  let config := mkConfig (Some "http://localhost:8092") None None None in
  exists gw rq,
    outcome (Gateway.constructor config) = inr gw
    /\ sent (Gateway.invoke (always 200 JNull) gw Gateway.HealthCheck) = [rq]
    /\ header "x-tenant-id" (req_headers rq) = None
    /\ ~ (exists tenant, header "x-tenant-id" (req_headers rq) = Some tenant).
Proof.
  cbv zeta. do 2 eexists. split; [reflexivity|]. split; [reflexivity|].
  split; [reflexivity|]. intros [tenant H]. discriminate H.
Qed.

(** ** The error flag of a result *)

Ltac unfold_handlers :=
  unfold dispatch, registerOntologyTools, registerSearchTools,
    registerAITools, registerPipelineTools, registerAdminTools;
  cbn [String.eqb Ascii.eqb Bool.eqb andb name arguments
       destructure member option_map].

Lemma dispatch_missing_arguments adapter gw g request :
  mem (name request) (declared g) = true ->
  invoked g request = None ->
  dispatch adapter gw g request
  = (inr (error_result
            ("Error: " ++ missing_arguments_message (name request))),
     []).
Proof.
  destruct request as [n args]. unfold invoked. cbn [name arguments].
  intros Hmem. rewrite Hmem. apply declared_cases in Hmem.
  destruct g; cbn in Hmem;
    repeat (destruct Hmem as [<- | Hmem]; [|]); try contradiction;
    destruct args as [p|]; cbn; try discriminate; reflexivity.
Qed.

Lemma get_is_none (j : json) (k : string) : Js.get j k = None -> j = JNull.
Proof. destruct j; simpl; try discriminate; reflexivity. Qed.

Lemma dispatch_returned adapter gw g request c j :
  invoked g request = Some c ->
  outcome (Gateway.invoke adapter gw c) = inr j ->
  (name request = "binelek_validate_yaml" -> j <> JNull) ->
  exists t, outcome (dispatch adapter gw g request) = inr (text_result t).
Proof.
  destruct request as [n args]. unfold invoked. cbn [name arguments].
  destruct (mem n (declared g)) eqn:Hmem; [|discriminate].
  apply declared_cases in Hmem.
  destruct g; cbn in Hmem;
    repeat (destruct Hmem as [<- | Hmem]; [|]); try contradiction;
    (destruct args as [p|]; cbn; [|try discriminate]);
    intros Hc; injection Hc as <-; cbn [Gateway.invoke]; intros Hj Hnn;
    unfold_handlers; rewrite guarded_outcome;
    rewrite ?outcome_bind, ?outcome_ret; cbn iota beta;
    rewrite ?outcome_bind, ?Hj; try (eexists; reflexivity).
  specialize (Hnn eq_refl). unfold field.
  destruct (Js.get j "valid") as [valid|] eqn:Ev;
    [|contradiction (Hnn (get_is_none _ _ Ev))].
  rewrite outcome_bind, outcome_ret.
  destruct (Js.truthy valid); [rewrite outcome_ret; eexists; reflexivity|].
  rewrite outcome_bind.
  destruct (Js.get j "errors") as [errors|] eqn:Ee;
    [|contradiction (Hnn (get_is_none _ _ Ee))].
  rewrite !outcome_ret. eexists; reflexivity.
Qed.

Lemma dispatch_null_yaml adapter gw g request c :
  invoked g request = Some c ->
  outcome (Gateway.invoke adapter gw c) = inr JNull ->
  name request = "binelek_validate_yaml" ->
  outcome (dispatch adapter gw g request)
  = inr (error_result
           "Error: Cannot read properties of null (reading 'valid')").
Proof.
  destruct request as [n args]. cbn [name]. intros Hc Hj ->.
  unfold invoked in Hc. cbn [name arguments] in Hc.
  destruct g; cbn in Hc; try discriminate Hc.
  destruct args as [p|]; cbn in Hc; [|discriminate Hc].
  injection Hc as <-. cbn [Gateway.invoke] in Hj.
  unfold_handlers. rewrite guarded_outcome, outcome_bind, outcome_ret.
  cbn iota beta. rewrite outcome_bind, Hj. reflexivity.
Qed.

(** C1, as the code has it. Every tool call, in every group, ends in a
    returned result and never in a thrown value, and the result has
    exactly one text block. Its [isError] is [true] when the name is
    not declared by the group, when the client method throws, when a
    tool that reads its arguments is called without any, and when
    [binelek_validate_yaml] is answered with the body [null]; it is
    absent in every other case, that is whenever the client method
    returns and the tool prints its text. It is never an explicit
    [false]. *)
Theorem dispatch_returns_result
        (adapter : Request -> Exchange) (gw : Gateway.t)
        (g : Group) (request : CallToolRequest) :
  exists r : ToolResult,
    outcome (dispatch adapter gw g request) = inr r
    /\ (exists t, content r = [mkText "text" t])
    /\ (isError r = Some true \/ isError r = None)
    /\ isError r <> Some false
    /\ (mem (name request) (declared g) = false -> isError r = Some true)
    /\ (forall c e,
           invoked g request = Some c ->
           outcome (Gateway.invoke adapter gw c) = inl e ->
           isError r = Some true)
    /\ (mem (name request) (declared g) = true ->
        invoked g request = None ->
        isError r = Some true)
    /\ (forall c,
           invoked g request = Some c ->
           outcome (Gateway.invoke adapter gw c) = inr JNull ->
           name request = "binelek_validate_yaml" ->
           isError r = Some true)
    /\ (forall c j,
           invoked g request = Some c ->
           outcome (Gateway.invoke adapter gw c) = inr j ->
           (name request = "binelek_validate_yaml" -> j <> JNull) ->
           isError r = None).
Proof.
  destruct (body_well_formed adapter gw g request) as (m & Hd & Hm).
  assert (Hr : exists r, outcome (dispatch adapter gw g request) = inr r
                         /\ well_formed r).
  { rewrite Hd, guarded_outcome. eexists; split; [reflexivity|].
    destruct (outcome m); [apply well_formed_error | exact Hm]. }
  destruct Hr as (r & Hr & Hwf). exists r.
  split; [exact Hr|].
  split; [destruct Hwf as (t & [-> | ->]); eexists; reflexivity|].
  split; [destruct Hwf as (t & [-> | ->]); auto|].
  split; [destruct Hwf as (t & [-> | ->]); discriminate|].
  split; [|split; [|split; [|split]]].
  - intros Hmem.
    rewrite (dispatch_unknown adapter gw g request Hmem) in Hr.
    injection Hr as <-. reflexivity.
  - intros c e Hc He.
    rewrite (dispatch_catches_call adapter gw g request c e Hc He) in Hr.
    injection Hr as <-. reflexivity.
  - intros Hmem Hc.
    rewrite (dispatch_missing_arguments adapter gw g request Hmem Hc) in Hr.
    injection Hr as <-. reflexivity.
  - intros c Hc Hj Hn.
    rewrite (dispatch_null_yaml adapter gw g request c Hc Hj Hn) in Hr.
    injection Hr as <-. reflexivity.
  - intros c j Hc Hj Hnn.
    destruct (dispatch_returned adapter gw g request c j Hc Hj Hnn)
      as (t & Ht).
    rewrite Ht in Hr. injection Hr as <-. reflexivity.
Qed.

Lemma dispatch_returns_result_witness :
  exists r,
    outcome (dispatch (always 200 (JArr [])) sample_client Pipeline
               (mkCall "binelek_list_pipelines" None)) = inr r
    /\ isError r = None.
Proof.
  destruct (dispatch_returns_result (always 200 (JArr [])) sample_client
              Pipeline (mkCall "binelek_list_pipelines" None))
    as (r & Hr & _ & _ & _ & _ & _ & _ & _ & Hok).
  exists r. split; [exact Hr|].
  apply (Hok Gateway.ListPipelines (JArr []) eq_refl eq_refl).
  intros H. discriminate H.
Defined.

(** * Further properties of the client *)

(** ** One request per call *)


(** X2. A request has no body exactly when it is a GET or a DELETE: the
    POST and PUT methods always send one, the others never do. *)
Theorem body_only_with_post_and_put
        (adapter : Request -> Exchange) (gw : Gateway.t)
        (c : Gateway.Call) (rq : Request) :
  In rq (sent (Gateway.invoke adapter gw c)) ->
  (req_data rq = NoBody <-> req_method rq = GET \/ req_method rq = DELETE).
Proof.
  rewrite invoke_sent. intros [<- | []].
  destruct c; cbn; split; intros H;
    solve [ auto | discriminate H | destruct H as [H | H]; discriminate H ].
Qed.

Lemma body_only_with_post_and_put_witness :
  let rq := mkRequest DELETE (Some "http://localhost:8092")
              "/api/ontology/entities/e1"
              [("X-Tenant-Id", Some "core");
               ("Content-Type", Some "application/json")] NoBody 30000 in
  req_data rq = NoBody <-> req_method rq = GET \/ req_method rq = DELETE.
Proof.
  exact (body_only_with_post_and_put (always 200 JNull) sample_client
           (Gateway.DeleteEntity (Some (JStr "e1"))) _ (or_introl eq_refl)).
Defined.

(** ** Base URL and timeout *)

Lemma sent_timeout adapter this c rq :
  In rq (sent (Gateway.invoke adapter this c)) ->
  req_timeout rq = Axios.timeout (Gateway.client this).
Proof.
  rewrite invoke_sent. intros [<- | []]. destruct c; reflexivity.
Qed.

(** X3. Every request of a constructed client goes to the configured base
    URL, with the configured timeout when that is a number other than
    zero and with 30000 ms otherwise; so no request ever carries the
    timeout 0. *)
Theorem requests_use_configured_target
        (config : GatewayConfig) (gw : Gateway.t)
        (adapter : Request -> Exchange) (c : Gateway.Call) (rq : Request) :
  outcome (Gateway.constructor config) = inr gw ->
  In rq (sent (Gateway.invoke adapter gw c)) ->
  req_baseURL rq = baseUrl config
  /\ req_timeout rq
     = match timeout config with
       | Some 0 | None => 30000
       | Some n => n
       end
  /\ req_timeout rq <> 0.
Proof.
  intros Hgw Hin.
  pose proof (sent_headers _ _ _ _ Hin) as [_ Hb].
  pose proof (sent_timeout _ _ _ _ Hin) as Ht.
  rewrite constructor_returns in Hgw. injection Hgw as <-.
  cbn in Hb, Ht. rewrite Hb, Ht. unfold Gateway.timeout_or_default.
  split; [reflexivity|].
  destruct (timeout config) as [n|]; [|split; [reflexivity | discriminate]].
  destruct (n =? 0) eqn:E.
  - apply Z.eqb_eq in E. subst n. split; [reflexivity | discriminate].
  - apply Z.eqb_neq in E. split; [destruct n; congruence | exact E].
Qed.

Lemma requests_use_configured_target_witness :
  let rq := mkRequest GET (Some "http://gw") "/health"
              [("X-Tenant-Id", Some "acme");
               ("Content-Type", Some "application/json")] NoBody 30000 in
  req_baseURL rq = Some "http://gw"
  /\ req_timeout rq = 30000
  /\ req_timeout rq <> 0.
Proof.
  exact (requests_use_configured_target
           (mkConfig (Some "http://gw") None (Some "acme") (Some 0))
           _ (always 200 JNull) Gateway.HealthCheck _ eq_refl
           (or_introl eq_refl)).
Defined.

(** ** Paths are built without escaping *)

(** X4. An identifier is pasted into the path as it is. Fetching the
    pipeline [s/runs] is the very computation that lists the runs of [s],
    fetching the domain [s/ontology] the one that fetches the ontology of
    [s], and fetching the entity [s/relationships] sends the request that
    lists the relationships of [s] and ends the same way unless the
    answer has status 404. *)
Theorem path_segments_are_not_escaped
        (adapter : Request -> Exchange) (gw : Gateway.t) (s : string) :
  Gateway.getPipeline adapter gw (Some (JStr (s ++ "/runs")))
  = Gateway.getPipelineRuns adapter gw (Some (JStr s))
  /\ Gateway.getDomainConfig adapter gw (Some (JStr (s ++ "/ontology")))
     = Gateway.getOntologySchema adapter gw (Some (JStr s))
  /\ sent (Gateway.getEntity adapter gw (Some (JStr (s ++ "/relationships"))))
     = sent (Gateway.getRelationships adapter gw (Some (JStr s)))
  /\ (forall rq r,
         In rq (sent (Gateway.getRelationships adapter gw (Some (JStr s)))) ->
         adapter rq = Responded r -> status r <> 404 ->
         outcome (Gateway.getEntity adapter gw
                    (Some (JStr (s ++ "/relationships"))))
         = outcome (Gateway.getRelationships adapter gw (Some (JStr s)))).
Proof.
  split; [reflexivity|]. split; [reflexivity|]. split.
  - rewrite getEntity_sent.
    exact (eq_sym (invoke_sent adapter gw
                     (Gateway.GetRelationships (Some (JStr s))))).
  - intros rq r Hin Hr H404.
    change (In rq (sent (Gateway.invoke adapter gw
                           (Gateway.GetRelationships (Some (JStr s))))))
      in Hin.
    rewrite invoke_sent in Hin. destruct Hin as [<- | []].
    pose proof (invoke_cases adapter gw
                  (Gateway.GetEntity (Some (JStr (s ++ "/relationships")))))
      as H1.
    pose proof (invoke_cases adapter gw
                  (Gateway.GetRelationships (Some (JStr s)))) as H2.
    cbn [Gateway.invoke] in H1, H2. rewrite H1, H2.
    cbn [outbound Js.to_string Js.to_string_json] in *.
    rewrite Hr. cbn [final]. apply Z.eqb_neq in H404. rewrite H404.
    reflexivity.
Qed.

Lemma path_segments_are_not_escaped_witness :
  outcome (Gateway.getEntity (always 200 (JArr [])) sample_client
             (Some (JStr "e1/relationships")))
  = outcome (Gateway.getRelationships (always 200 (JArr [])) sample_client
               (Some (JStr "e1"))).
Proof.
  exact (proj2 (proj2 (proj2 (path_segments_are_not_escaped
                                (always 200 (JArr [])) sample_client "e1")))
           _ (mkResponse 200 (JArr [])) (or_introl eq_refl) eq_refl
           ltac:(discriminate)).
Defined.

(** ** Optional objects *)

Lemma or_else_spec (v : value) (d : json) :
  Js.truthy (Some d) = true ->
  Js.truthy (Some (Js.or_else v d)) = true
  /\ (Js.truthy v = false -> Js.or_else v d = d)
  /\ (Js.truthy v = true -> Some (Js.or_else v d) = v).
Proof.
  intros Hd. unfold Js.or_else.
  destruct v as [j|]; [|repeat split; [exact Hd | discriminate]].
  destruct (Js.truthy (Some j)) eqn:E; repeat split;
    auto; discriminate.
Qed.

(** X6. The optional [parameters] of a query and of a pipeline trigger,
    the [properties] of a relationship and the [context] of a chat are
    sent as given when they are truthy, and are replaced by an empty
    object (an empty array for [context]) when they are absent or falsy,
    that is [null], [false], [0] or the empty string: what is sent in
    their place is always truthy. *)
Theorem falsy_optionals_are_defaulted
        (adapter : Request -> Exchange) (gw : Gateway.t) (a b c v : value) :
  let defaulted (x d : json) :=
    Js.truthy (Some x) = true
    /\ (Js.truthy v = false -> x = d)
    /\ (Js.truthy v = true -> Some x = v) in
  let field_of (call : Gateway.Call) (k : string) (d : json) :=
    exists rq f x,
      sent (Gateway.invoke adapter gw call) = [rq]
      /\ req_data rq = ObjectLiteral f
      /\ Js.assoc k f = Some (Some x)
      /\ defaulted x d in
  field_of (Gateway.QueryEntities a v) "parameters" (JObj [])
  /\ field_of (Gateway.CreateRelationship a b c v) "properties" (JObj [])
  /\ field_of (Gateway.Chat a v) "context" (JArr [])
  /\ exists rq x,
      sent (Gateway.invoke adapter gw (Gateway.TriggerPipeline a v)) = [rq]
      /\ req_data rq = Payload x
      /\ defaulted x (JObj []).
Proof.
  cbv zeta. rewrite !invoke_sent.
  repeat split;
    try (do 3 eexists; split; [reflexivity|]; split; [reflexivity|];
         split; [reflexivity|]; apply or_else_spec; reflexivity).
  do 2 eexists. split; [reflexivity|]. split; [reflexivity|].
  apply or_else_spec; reflexivity.
Qed.

(** ** Hybrid search hands over every argument *)

Lemma assoc_assign (A : Type) (k k' : string) (v : A) l :
  Js.assoc k (Js.assign k' v l)
  = if String.eqb k k' then Some v else Js.assoc k l.
Proof.
  induction l as [|[k0 v0] l IH]; simpl; [reflexivity|].
  destruct (String.eqb k' k0) eqn:E1; simpl.
  - apply String.eqb_eq in E1. subst k0.
    destruct (String.eqb k k'); reflexivity.
  - rewrite IH.
    destruct (String.eqb k k0) eqn:E2; destruct (String.eqb k k') eqn:E3;
      try reflexivity.
    apply String.eqb_eq in E2, E3. subst k0 k'.
    rewrite String.eqb_refl in E1. discriminate E1.
Qed.

Lemma assoc_app (A : Type) (k : string) (l1 l2 : list (string * A)) :
  Js.assoc k (l1 ++ l2)
  = match Js.assoc k l1 with
    | Some v => Some v
    | None => Js.assoc k l2
    end.
Proof.
  induction l1 as [|[k0 v0] l1 IH]; simpl; [reflexivity|].
  destruct (String.eqb k k0); [reflexivity | exact IH].
Qed.

Lemma assoc_in_keys (A : Type) (k : string) (l : list (string * A)) v :
  Js.assoc k l = Some v -> In k (map fst l).
Proof.
  induction l as [|[k0 v0] l IH]; simpl; [discriminate|].
  destruct (String.eqb k k0) eqn:E.
  - apply String.eqb_eq in E. auto.
  - auto.
Qed.

(** Reading a property after a spread: the last binding of the source
    wins, and the properties written before stay where the source has
    none. *)
Lemma assoc_spread_fold (k : string) (props : list (string * json)) :
  forall init : list (string * value),
    Js.assoc k (fold_left
                  (fun acc kv => Js.assign (fst kv) (Some (snd kv)) acc)
                  props init)
    = match Js.assoc k (rev props) with
      | Some v => Some (Some v)
      | None => Js.assoc k init
      end.
Proof.
  induction props as [|[k0 v0] props IH]; intros init; simpl;
    [reflexivity|].
  rewrite IH, assoc_app, assoc_assign. simpl.
  destruct (Js.assoc k (rev props)); [reflexivity|].
  destruct (String.eqb k k0); reflexivity.
Qed.

Lemma assoc_rev_unique (A : Type) (k : string) (l : list (string * A)) :
  NoDup (map fst l) -> Js.assoc k (rev l) = Js.assoc k l.
Proof.
  induction l as [|[k0 v0] l IH]; simpl; [reflexivity|].
  intros Hnd. inversion Hnd as [|x xs Hnot Hnd']; subst.
  rewrite assoc_app, (IH Hnd'). simpl.
  destruct (Js.assoc k l) as [v|] eqn:E.
  - apply assoc_in_keys in E.
    destruct (String.eqb k k0) eqn:E0; [|reflexivity].
    apply String.eqb_eq in E0. subst k0. contradiction.
  - reflexivity.
Qed.

(** X7. [binelek_hybrid_search] sends one request, a POST to
    [/api/search/hybrid], with an object body that holds every
    property of the arguments with the value given, whatever its name,
    and nothing else besides [query] (which is [undefined] when the
    arguments have none). The keys of the arguments are distinct, as in
    any parsed JSON object. *)
Theorem hybrid_search_forwards_every_argument
        (adapter : Request -> Exchange) (gw : Gateway.t)
        (p : list (string * json)) :
  NoDup (map fst p) ->
  exists rq f,
    sent (dispatch adapter gw Search
            (mkCall "binelek_hybrid_search" (Some p))) = [rq]
    /\ req_method rq = POST
    /\ req_url rq = "/api/search/hybrid"
    /\ req_data rq = ObjectLiteral f
    /\ (forall k v, Js.assoc k p = Some v -> Js.assoc k f = Some (Some v))
    /\ (forall k, Js.assoc k p = None ->
                  Js.assoc k f
                  = if String.eqb k "query" then Some None else None).
Proof.
  intros Hnd.
  rewrite (dispatch_sends adapter gw Search
             (mkCall "binelek_hybrid_search" (Some p))
             (Gateway.HybridSearch (Js.assoc "query" p) (Some (JObj p)))
             eq_refl).
  rewrite invoke_sent. do 2 eexists.
  split; [reflexivity|]. split; [reflexivity|]. split; [reflexivity|].
  split; [reflexivity|].
  unfold Js.spread. cbn [Js.own_props]. split.
  - intros k v Hk.
    rewrite assoc_spread_fold, (assoc_rev_unique _ k p Hnd), Hk. reflexivity.
  - intros k Hk.
    rewrite assoc_spread_fold, (assoc_rev_unique _ k p Hnd), Hk.
    simpl. destruct (String.eqb k "query") eqn:E; [|reflexivity].
    apply String.eqb_eq in E. subst k. rewrite Hk. reflexivity.
Qed.

Lemma hybrid_search_forwards_every_argument_witness :
  exists rq f,
    sent (dispatch (always 200 JNull) sample_client Search
            (mkCall "binelek_hybrid_search"
               (Some [("query", JStr "q"); ("tenantId", JStr "other")])))
    = [rq]
    /\ req_method rq = POST
    /\ req_data rq = ObjectLiteral f
    /\ Js.assoc "tenantId" f = Some (Some (JStr "other")).
Proof.
  destruct (hybrid_search_forwards_every_argument
              (always 200 JNull) sample_client
              [("query", JStr "q"); ("tenantId", JStr "other")])
    as (rq & f & H1 & Hm & _ & H2 & H3 & _).
  - repeat constructor; simpl; intuition discriminate.
  - exists rq, f. split; [exact H1|]. split; [exact Hm|].
    split; [exact H2|]. apply H3. reflexivity.
Defined.

(** * Further properties of the handlers *)

Lemma bind_ret_l (A B : Type) (a : A) (f : A -> M B) :
  bind (ret a) f = f a.
Proof. unfold bind, ret. destruct (f a); reflexivity. Qed.

Ltac split_agree :=
  repeat match goal with
         | H : agree (?k :: ?ks) ?p ?q |- _ =>
             let E := fresh "E" in
             assert (E : Js.assoc k p = Js.assoc k q)
               by (apply H; left; reflexivity);
             assert (agree ks p q)
               by (intros x Hx; apply H; right; exact Hx);
             clear H
         end.

(** ** Arguments that a tool does not declare *)

(** X8. A handler looks at the properties it destructures and at nothing
    else: two calls of a tool whose arguments agree on those properties
    run the same computation, whatever other properties the arguments
    carry. (This holds for every tool but [binelek_hybrid_search].) *)
Theorem undeclared_arguments_are_ignored
        (adapter : Request -> Exchange) (gw : Gateway.t) (g : Group)
        (toolName : string) (ks : list string)
        (p q : list (string * json)) :
  reads toolName = Some ks ->
  agree ks p q ->
  dispatch adapter gw g (mkCall toolName (Some p))
  = dispatch adapter gw g (mkCall toolName (Some q)).
Proof.
  intros Hr Hag.
  destruct (mem toolName (declared g)) eqn:Hmem.
  - apply declared_cases in Hmem.
    destruct g; cbn in Hmem;
      repeat (destruct Hmem as [<- | Hmem]; [|]); try contradiction;
      cbn in Hr; try discriminate Hr; injection Hr as <-;
      split_agree; unfold_handlers; rewrite ?bind_ret_l; cbn beta;
      repeat match goal with
             | E : Js.assoc _ p = Js.assoc _ q |- _ => rewrite E; clear E
             end;
      reflexivity.
  - rewrite (dispatch_unknown adapter gw g (mkCall toolName (Some p)) Hmem).
    rewrite (dispatch_unknown adapter gw g (mkCall toolName (Some q)) Hmem).
    reflexivity.
Qed.

Lemma undeclared_arguments_are_ignored_witness :
  dispatch (always 200 JNull) sample_client Search
    (mkCall "binelek_semantic_search"
       (Some [("query", JStr "q"); ("tenantId", JStr "other")]))
  = dispatch (always 200 JNull) sample_client Search
      (mkCall "binelek_semantic_search" (Some [("query", JStr "q")])).
Proof.
  apply (undeclared_arguments_are_ignored (always 200 JNull) sample_client
           Search "binelek_semantic_search"
           ["query"; "entityTypes"; "limit"]).
  - reflexivity.
  - intros k [<- | [<- | [<- | []]]]; reflexivity.
Defined.

(** ** One group for each tool name *)

Lemma declared_elsewhere (g g' : Group) (n : string) :
  mem n (declared g) = true -> g <> g' -> mem n (declared g') = false.
Proof.
  intros Hmem Hne. apply declared_cases in Hmem.
  destruct g; cbn in Hmem;
    repeat (destruct Hmem as [<- | Hmem]; [|]); try contradiction;
    destruct g'; try reflexivity; contradiction Hne; reflexivity.
Qed.

(** X9. A tool name is declared by one group only. The handler of any
    other group answers a call with that name by [Unknown tool: <name>],
    flagged as an error, and sends no request. *)
Theorem tool_names_belong_to_one_group
        (adapter : Request -> Exchange) (gw : Gateway.t) (g g' : Group)
        (toolName : string) (args : option (list (string * json))) :
  mem toolName (declared g) = true ->
  g <> g' ->
  owner toolName = Some g
  /\ dispatch adapter gw g' (mkCall toolName args)
     = (inr (error_result ("Unknown tool: " ++ toolName)), []).
Proof.
  intros Hmem Hne. split.
  - apply declared_cases in Hmem.
    destruct g; cbn in Hmem;
      repeat (destruct Hmem as [<- | Hmem]; [|]); try contradiction;
      reflexivity.
  - apply (dispatch_unknown adapter gw g' (mkCall toolName args)).
    exact (declared_elsewhere g g' toolName Hmem Hne).
Qed.

Lemma tool_names_belong_to_one_group_witness :
  owner "binelek_get_entity" = Some Ontology
  /\ dispatch (always 200 JNull) sample_client Admin
       (mkCall "binelek_get_entity" (Some [("entityId", JStr "e1")]))
     = (inr (error_result "Unknown tool: binelek_get_entity"), []).
Proof.
  apply (tool_names_belong_to_one_group (always 200 JNull) sample_client
           Ontology Admin "binelek_get_entity").
  - reflexivity.
  - discriminate.
Defined.

(** ** Calls without arguments *)
(** X10. A declared tool that reads its arguments, called without any,
    sends no request and returns a result flagged as an error whose text
    is [Error: ] and the message of the TypeError of the runtime. The
    two tools that take no input run the same with and without
    arguments. *)
Theorem calls_without_arguments
        (adapter : Request -> Exchange) (gw : Gateway.t) (g : Group)
        (toolName : string) :
  mem toolName (declared g) = true ->
  (takes_no_input toolName = false ->
   dispatch adapter gw g (mkCall toolName None)
   = (inr (mkResult
             [mkText "text"
                ("Error: " ++ missing_arguments_message toolName)]
             (Some true)),
      []))
  /\ (takes_no_input toolName = true ->
      forall args,
        dispatch adapter gw g (mkCall toolName args)
        = dispatch adapter gw g (mkCall toolName None)).
Proof.
  intros Hmem. apply declared_cases in Hmem.
  destruct g; cbn in Hmem;
    repeat (destruct Hmem as [<- | Hmem]; [|]); try contradiction;
    (split; intros Hn; try discriminate Hn);
    try (intros args); reflexivity.
Qed.

Lemma calls_without_arguments_witness :
  dispatch (always 200 JNull) sample_client Search
    (mkCall "binelek_hybrid_search" None)
  = (inr (mkResult
            [mkText "text"
               "Error: Cannot read properties of undefined (reading 'query')"]
            (Some true)),
     []).
Proof.
  exact (proj1 (calls_without_arguments (always 200 JNull) sample_client
                  Search "binelek_hybrid_search" eq_refl)
           eq_refl).
Defined.

(** ** Requests of a tool call *)



(** ** The text of a failed call *)

(** X12. For a constructed client and a tool call that reaches a client
    method, the text of the result follows from what becomes of the
    request (a redirect counting as what it ends in):
    [Error: API Error (<status>): <body>] for a status of 500 or more,
    [Error: No response from API Gateway. Is it running?] when no
    response comes, and [Error: Request failed: <message>] when the
    request cannot be sent; the result is flagged in all three cases. *)
Theorem failure_texts
        (config : GatewayConfig) (gw : Gateway.t)
        (adapter : Request -> Exchange) (g : Group)
        (request : CallToolRequest) (c : Gateway.Call) :
  outcome (Gateway.constructor config) = inr gw ->
  invoked g request = Some c ->
  match final (adapter (outbound gw c)) with
  | Responded r =>
      500 <= status r ->
      outcome (dispatch adapter gw g request)
      = inr (error_result
               ("Error: API Error (" ++ Js.string_of_Z (status r) ++ "): "
                  ++ JSON.compact (data r)))
  | Redirected _ _ _ => False
  | NoResponse _ =>
      outcome (dispatch adapter gw g request)
      = inr (error_result
               "Error: No response from API Gateway. Is it running?")
  | NotSent m =>
      outcome (dispatch adapter gw g request)
      = inr (error_result ("Error: Request failed: " ++ m))
  end.
Proof.
  intros Hgw Hc.
  apply constructor_inv in Hgw as (Hv & _).
  pose proof (invoke_cases adapter gw c) as Hi.
  destruct (final (adapter (outbound gw c))) as [r | r l n | m | m] eqn:E.
  - intros Hst. rewrite Hv in Hi.
    assert (Hlow : (status r <? 200) = false) by (apply Z.ltb_ge; lia).
    apply Z.ltb_ge in Hst. cbn beta in Hi. rewrite Hlow, Hst in Hi.
    exact (dispatch_catches_call _ _ _ _ _ _ Hc Hi).
  - contradiction (final_not_redirected _ _ _ _ E).
  - exact (dispatch_catches_call _ _ _ _ _ _ Hc Hi).
  - exact (dispatch_catches_call _ _ _ _ _ _ Hc Hi).
Qed.

Lemma failure_texts_witness :
  outcome (dispatch (always 502 (JStr "bad gateway")) sample_client Pipeline
             (mkCall "binelek_list_pipelines" None))
  = inr (error_result
           ("Error: API Error (502): " ++ JSON.quote "bad gateway")).
Proof.
  apply (failure_texts sample_config sample_client
           (always 502 (JStr "bad gateway")) Pipeline
           (mkCall "binelek_list_pipelines" None) Gateway.ListPipelines
           eq_refl eq_refl).
  cbn. lia.
Defined.

(** ** The text of a successful call *)

Lemma dispatch_echo adapter gw g request c j pre :
  invoked g request = Some c ->
  outcome (Gateway.invoke adapter gw c) = inr j ->
  confirmation (name request) = Some pre ->
  outcome (dispatch adapter gw g request)
  = inr (text_result (pre ++ JSON.pretty 2 0 j)).
Proof.
  destruct request as [n args]. unfold invoked. cbn [name arguments].
  destruct (mem n (declared g)) eqn:Hmem; [|discriminate].
  apply declared_cases in Hmem.
  destruct g; cbn in Hmem;
    repeat (destruct Hmem as [<- | Hmem]; [|]); try contradiction;
    (destruct args as [p|]; cbn; [|try discriminate]);
    intros Hc; injection Hc as <-; cbn [Gateway.invoke]; intros Hj Hpre;
    try discriminate Hpre; injection Hpre as <-;
    unfold_handlers; rewrite guarded_outcome;
    rewrite ?outcome_bind, ?outcome_ret; cbn iota beta;
    rewrite ?outcome_bind, ?Hj; reflexivity.
Qed.

(** X13. When the client method of a tool returns a body, the result is
    not flagged and its text is the body serialized with an indent of
    two, after the confirmation line of the tool if it has one. (The
    tools [binelek_delete_entity], [binelek_ai_chat] and
    [binelek_validate_yaml] have texts of their own.) *)
Theorem success_text_is_the_serialized_body
        (adapter : Request -> Exchange) (gw : Gateway.t) (g : Group)
        (request : CallToolRequest) (c : Gateway.Call) (j : json)
        (pre : string) :
  invoked g request = Some c ->
  outcome (Gateway.invoke adapter gw c) = inr j ->
  confirmation (name request) = Some pre ->
  outcome (dispatch adapter gw g request)
  = inr (mkResult [mkText "text" (pre ++ JSON.pretty 2 0 j)] None).
Proof. exact (dispatch_echo adapter gw g request c j pre). Qed.

Lemma success_text_is_the_serialized_body_witness :
  outcome (dispatch (always 201 (JObj [("id", JStr "e9")])) sample_client
             Ontology
             (mkCall "binelek_create_entity"
                (Some [("entityType", JStr "Owner")])))
  = inr (mkResult
           [mkText "text"
              ("Entity created successfully:" ++ JSON.newline
                 ++ "{" ++ JSON.newline ++ "  " ++ JSON.quote "id" ++ ": "
                 ++ JSON.quote "e9" ++ JSON.newline ++ "}")]
           None).
Proof.
  exact (success_text_is_the_serialized_body
           (always 201 (JObj [("id", JStr "e9")])) sample_client Ontology
           (mkCall "binelek_create_entity"
              (Some [("entityType", JStr "Owner")]))
           (Gateway.CreateEntity (Some (JStr "Owner")) None)
           (JObj [("id", JStr "e9")])
           ("Entity created successfully:" ++ JSON.newline)
           eq_refl eq_refl eq_refl).
Defined.

(** X14. A final response with a status from 200 to 499 (one that the
    HTTP library hands on, so not a redirect that it follows) is
    reported as a success by every tool with a confirmation table entry,
    whatever the status says: for a constructed client the result is
    not flagged and its text is the confirmation line and the serialized
    body, also for a status such as 400, 401 or 404. The one exception
    is status 404 for [binelek_get_entity]. *)
Theorem client_errors_are_reported_as_success
        (config : GatewayConfig) (gw : Gateway.t)
        (adapter : Request -> Exchange) (g : Group) (toolName : string)
        (p : list (string * json)) (st : Z) (body : json) (pre : string) :
  outcome (Gateway.constructor config) = inr gw ->
  (forall rq, adapter rq = Responded (mkResponse st body)) ->
  200 <= st < 500 ->
  mem toolName (declared g) = true ->
  confirmation toolName = Some pre ->
  toolName <> "binelek_get_entity" \/ st <> 404 ->
  outcome (dispatch adapter gw g (mkCall toolName (Some p)))
  = inr (mkResult [mkText "text" (pre ++ JSON.pretty 2 0 body)] None).
Proof.
  intros Hgw Hnet [Hlo Hst] Hmem Hpre Hex.
  destruct (invoked_total g (mkCall toolName (Some p)) p Hmem eq_refl)
    as (c & Hc).
  apply (dispatch_echo adapter gw g _ c body pre Hc); [|exact Hpre].
  apply constructor_inv in Hgw as (Hv & _).
  rewrite invoke_cases, Hnet, Hv. cbn.
  assert (Hlow : (st <? 200) = false) by (apply Z.ltb_ge; lia).
  apply Z.ltb_lt in Hst. rewrite Hlow, Hst.
  destruct c; try reflexivity.
  destruct Hex as [Hex | Hex].
  - exfalso. unfold invoked in Hc. cbn [name arguments] in Hc.
    rewrite Hmem in Hc. apply declared_cases in Hmem.
    destruct g; cbn in Hmem;
      repeat (destruct Hmem as [<- | Hmem]; [|]); try contradiction;
      cbn in Hc; discriminate Hc.
  - apply Z.eqb_neq in Hex. rewrite Hex. reflexivity.
Qed.

Lemma client_errors_are_reported_as_success_witness :
  outcome (dispatch (always 404 JNull) sample_client Ontology
             (mkCall "binelek_update_entity"
                (Some [("entityId", JStr "gone")])))
  = inr (mkResult
           [mkText "text"
              ("Entity updated successfully:" ++ JSON.newline ++ "null")]
           None).
Proof.
  apply (client_errors_are_reported_as_success sample_config sample_client
           (always 404 JNull) Ontology "binelek_update_entity"
           [("entityId", JStr "gone")] 404 JNull
           ("Entity updated successfully:" ++ JSON.newline)
           eq_refl (fun _ => eq_refl)).
  - lia.
  - reflexivity.
  - reflexivity.
  - left. discriminate.
Defined.

(** ** Status 404 *)

(** X15. For a constructed client and a gateway that answers 404, only
    [binelek_get_entity] reports the entity as not found, with the text
    [Error: Request failed: Entity not found: <id>] and the error flag;
    [binelek_delete_entity] reports [Entity <id> deleted successfully]
    and [binelek_get_relationships] prints the body, both without the
    flag. *)
Theorem not_found_is_reported_by_get_entity_only
        (config : GatewayConfig) (gw : Gateway.t)
        (adapter : Request -> Exchange)
        (p : list (string * json)) (body : json) :
  outcome (Gateway.constructor config) = inr gw ->
  (forall rq, adapter rq = Responded (mkResponse 404 body)) ->
  let id := Js.to_string (Js.assoc "entityId" p) in
  outcome (dispatch adapter gw Ontology
             (mkCall "binelek_get_entity" (Some p)))
  = inr (mkResult
           [mkText "text" ("Error: Request failed: Entity not found: " ++ id)]
           (Some true))
  /\ outcome (dispatch adapter gw Ontology
                (mkCall "binelek_delete_entity" (Some p)))
     = inr (mkResult
              [mkText "text" ("Entity " ++ id ++ " deleted successfully")]
              None)
  /\ outcome (dispatch adapter gw Ontology
                (mkCall "binelek_get_relationships" (Some p)))
     = inr (mkResult [mkText "text" (JSON.pretty 2 0 body)] None).
Proof.
  intros Hgw Hnet id. subst id.
  apply constructor_inv in Hgw as (Hv & _).
  assert (Hcall : forall c,
             outcome (Gateway.invoke adapter gw c)
             = match c with
               | Gateway.GetEntity e =>
                   inl (Error ("Request failed: Entity not found: "
                                 ++ Js.to_string e))
               | _ => inr body
               end).
  { intros c. rewrite invoke_cases, Hnet, Hv. destruct c; reflexivity. }
  repeat split.
  - exact (dispatch_catches_call adapter gw Ontology
             (mkCall "binelek_get_entity" (Some p))
             (Gateway.GetEntity (Js.assoc "entityId" p)) _ eq_refl
             (Hcall _)).
  - pose proof (Hcall (Gateway.DeleteEntity (Js.assoc "entityId" p))) as H.
    cbn [Gateway.invoke] in H. unfold_handlers.
    rewrite guarded_outcome, !outcome_bind, outcome_ret. cbn iota beta.
    rewrite outcome_bind, H. reflexivity.
  - exact (dispatch_echo adapter gw Ontology
             (mkCall "binelek_get_relationships" (Some p))
             (Gateway.GetRelationships (Js.assoc "entityId" p)) body ""
             eq_refl (Hcall _) eq_refl).
Qed.

Lemma not_found_is_reported_by_get_entity_only_witness :
  outcome (dispatch (always 404 JNull) sample_client Ontology
             (mkCall "binelek_delete_entity"
                (Some [("entityId", JStr "gone")])))
  = inr (mkResult [mkText "text" "Entity gone deleted successfully"] None).
Proof.
  exact (proj1 (proj2 (not_found_is_reported_by_get_entity_only
                         sample_config sample_client (always 404 JNull)
                         [("entityId", JStr "gone")] JNull eq_refl
                         (fun _ => eq_refl)))).
Defined.

(** ** Texts that are not the serialized body *)

(** X16. The text of a successful [binelek_delete_entity] names the
    entity id and does not depend on the body that the gateway sent. *)
Theorem delete_confirmation_ignores_the_body
        (adapter : Request -> Exchange) (gw : Gateway.t)
        (p : list (string * json)) (j : json) :
  outcome (Gateway.deleteEntity adapter gw (Js.assoc "entityId" p)) = inr j ->
  outcome (dispatch adapter gw Ontology
             (mkCall "binelek_delete_entity" (Some p)))
  = inr (mkResult
           [mkText "text"
              ("Entity " ++ Js.to_string (Js.assoc "entityId" p)
                 ++ " deleted successfully")]
           None).
Proof.
  intros H. unfold_handlers.
  rewrite guarded_outcome, !outcome_bind, outcome_ret. cbn iota beta.
  rewrite outcome_bind, H. reflexivity.
Qed.

Lemma delete_confirmation_ignores_the_body_witness :
  outcome (dispatch (always 200 (JObj [("deleted", JNum 1)])) sample_client
             Ontology
             (mkCall "binelek_delete_entity" (Some [("entityId", JNum 7)])))
  = inr (mkResult [mkText "text" "Entity 7 deleted successfully"] None).
Proof.
  exact (delete_confirmation_ignores_the_body
           (always 200 (JObj [("deleted", JNum 1)])) sample_client
           [("entityId", JNum 7)] (JObj [("deleted", JNum 1)]) eq_refl).
Defined.

(** X17. [binelek_ai_chat] returns a reply that is a string as it is,
    without quotes or escapes, and any other reply serialized with an
    indent of two. *)
Theorem chat_reply_text
        (adapter : Request -> Exchange) (gw : Gateway.t)
        (p : list (string * json)) (j : json) :
  outcome (Gateway.chat adapter gw (Js.assoc "message" p)
             (Js.assoc "context" p)) = inr j ->
  (forall s, j = JStr s ->
             outcome (dispatch adapter gw AI
                        (mkCall "binelek_ai_chat" (Some p)))
             = inr (mkResult [mkText "text" s] None))
  /\ ((forall s, j <> JStr s) ->
      outcome (dispatch adapter gw AI (mkCall "binelek_ai_chat" (Some p)))
      = inr (mkResult [mkText "text" (JSON.pretty 2 0 j)] None)).
Proof.
  intros H.
  assert (Hd : outcome (dispatch adapter gw AI
                          (mkCall "binelek_ai_chat" (Some p)))
               = inr (text_result (match j with
                                   | JStr s => s
                                   | _ => JSON.pretty 2 0 j
                                   end))).
  { unfold_handlers.
    rewrite guarded_outcome, !outcome_bind, outcome_ret. cbn iota beta.
    rewrite outcome_bind, H. reflexivity. }
  rewrite Hd. split.
  - intros s ->. reflexivity.
  - intros Hs. destruct j; try reflexivity. contradiction (Hs s eq_refl).
Qed.

Lemma chat_reply_text_witness :
  outcome (dispatch (always 200 (JStr "plain text")) sample_client AI
             (mkCall "binelek_ai_chat" (Some [("message", JStr "hi")])))
  = inr (mkResult [mkText "text" "plain text"] None).
Proof.
  exact (proj1 (chat_reply_text (always 200 (JStr "plain text"))
                  sample_client [("message", JStr "hi")]
                  (JStr "plain text") eq_refl)
           _ eq_refl).
Defined.

(** ** YAML validation on other bodies *)

(** X18. [binelek_validate_yaml] tests [valid] for truthiness and does
    not check the shape of the body. A body that is [null] gives a
    flagged error with the TypeError of the runtime; a truthy [valid]
    of any type gives the check mark text; a [valid] that is absent or
    falsy, in a body without [errors] (also a body that is a string, a
    number or an array), gives the cross mark text ending in
    [undefined]. *)
Theorem validate_yaml_on_other_bodies
        (adapter : Request -> Exchange) (gw : Gateway.t)
        (p : list (string * json)) (body : json) :
  outcome (Gateway.validateYaml adapter gw (Js.assoc "yamlContent" p))
  = inr body ->
  let reply :=
    outcome (dispatch adapter gw Admin
               (mkCall "binelek_validate_yaml" (Some p))) in
  (body = JNull ->
   reply = inr (mkResult
                  [mkText "text"
                     "Error: Cannot read properties of null (reading 'valid')"]
                  (Some true)))
  /\ (forall valid,
         Js.get body "valid" = Some valid -> Js.truthy valid = true ->
         reply = inr (mkResult
                        [mkText "text"
                           (check_mark ++ " YAML is valid" ++ JSON.newline
                              ++ JSON.pretty 2 0 body)]
                        None))
  /\ (forall valid,
         Js.get body "valid" = Some valid -> Js.truthy valid = false ->
         Js.get body "errors" = Some None ->
         reply = inr (mkResult
                        [mkText "text"
                           (cross_mark ++ " YAML validation failed:"
                              ++ JSON.newline ++ "undefined")]
                        None)).
Proof.
  intros Hbody reply. subst reply. unfold_handlers.
  rewrite guarded_outcome, outcome_bind, outcome_ret. cbn iota beta.
  rewrite outcome_bind, Hbody. unfold field. repeat split.
  - intros ->. reflexivity.
  - intros valid Hv Ht. rewrite Hv, outcome_bind, outcome_ret, Ht.
    reflexivity.
  - intros valid Hv Ht He.
    rewrite Hv, outcome_bind, outcome_ret, Ht, outcome_bind, He.
    reflexivity.
Qed.

Lemma validate_yaml_on_other_bodies_witness :
  outcome (dispatch (always 200 (JStr "<html>")) sample_client Admin
             (mkCall "binelek_validate_yaml"
                (Some [("yamlContent", JStr "a: 1")])))
  = inr (mkResult
           [mkText "text"
              (cross_mark ++ " YAML validation failed:" ++ JSON.newline
                 ++ "undefined")]
           None).
Proof.
  exact (proj2 (proj2 (validate_yaml_on_other_bodies
                         (always 200 (JStr "<html>")) sample_client
                         [("yamlContent", JStr "a: 1")] (JStr "<html>")
                         eq_refl))
           None eq_refl eq_refl eq_refl).
Defined.

(** ** What the error flag means *)

Lemma body_shape adapter gw g request :
  exists m : M ToolResult,
    dispatch adapter gw g request = try_catch m on_error
    /\ match outcome m with
       | inl _ => True
       | inr r =>
           (exists t, r = text_result t)
           \/ (r = error_result ("Unknown tool: " ++ name request)
               /\ mem (name request) (declared g) = false)
       end.
Proof.
  destruct request as [n args].
  destruct g; cbn [dispatch];
    unfold registerOntologyTools, registerSearchTools, registerAITools,
      registerPipelineTools, registerAdminTools;
    cbn [name arguments];
    (eexists; split; [reflexivity|]);
    split_name n;
    try (unfold unknown_tool; rewrite outcome_ret; right;
         split; [reflexivity|]; cbn;
         repeat match goal with
                | E : String.eqb n _ = false |- _ => rewrite E; clear E
                end;
         reflexivity);
    destruct args as [p|];
    unfold destructure, member;
    rewrite ?outcome_bind, ?outcome_ret, ?outcome_throw; trivial;
    try (cbn [outcome]; rewrite ?outcome_bind;
         match goal with
         | |- context [outcome ?call] =>
             destruct (outcome call) as [e | j]; trivial
         end;
         rewrite ?outcome_bind, ?outcome_ret; eauto).
  all: unfold field; destruct (Js.get j "valid") as [valid|];
    rewrite ?outcome_bind, ?outcome_ret, ?outcome_throw; trivial;
    destruct (Js.truthy valid); rewrite ?outcome_ret; eauto;
    rewrite outcome_bind;
    destruct (Js.get j "errors"); rewrite ?outcome_ret, ?outcome_throw;
    eauto.
Qed.

(** X19. A result is flagged as an error in two cases only: the name is
    not declared by the group, and the text is [Unknown tool: <name>];
    or something was thrown while the call ran, and the text starts with
    [Error: ]. A result that is not flagged is the text that the tool
    itself produced. *)
Theorem error_flag_means_unknown_or_thrown
        (adapter : Request -> Exchange) (gw : Gateway.t) (g : Group)
        (request : CallToolRequest) (r : ToolResult) :
  outcome (dispatch adapter gw g request) = inr r ->
  isError r = Some true ->
  exists t,
    content r = [mkText "text" t]
    /\ ((t = "Unknown tool: " ++ name request
         /\ mem (name request) (declared g) = false)
        \/ starts_with "Error: " t).
Proof.
  destruct (body_shape adapter gw g request) as (m & -> & Hm).
  rewrite guarded_outcome. intros Hr Hflag. injection Hr as <-.
  destruct (outcome m) as [e | r].
  - eexists. split; [reflexivity|]. right. eexists. reflexivity.
  - destruct Hm as [(t & ->) | (-> & Hmem)].
    + discriminate Hflag.
    + eexists. split; [reflexivity|]. left. split; [reflexivity | exact Hmem].
Qed.

Lemma error_flag_means_unknown_or_thrown_witness :
  exists t,
    content (error_result
               "Error: No response from API Gateway. Is it running?")
    = [mkText "text" t]
    /\ ((t = "Unknown tool: binelek_list_domains"
         /\ mem "binelek_list_domains" (declared Admin) = false)
        \/ starts_with "Error: " t).
Proof.
  exact (error_flag_means_unknown_or_thrown
           (fun _ => NoResponse "timeout of 30000ms exceeded") sample_client
           Admin (mkCall "binelek_list_domains" None) _ eq_refl eq_refl).
Defined.

(** * Properties of the bootstrap *)

Lemma main_returns adapter env :
  exists gw,
    outcome (Gateway.constructor (startup_config env)) = inr gw
    /\ outcome (main adapter env)
       = inr (mkRegistry
                (mkServer (Some (fun a => dispatch a gw Admin)) true)
                (declared Ontology ++ declared Search ++ declared AI
                   ++ declared Pipeline ++ declared Admin)%list)
    /\ sent (main adapter env) = [outbound gw Gateway.HealthCheck].
Proof.
  unfold main. rewrite constructor_returns. eexists.
  split; [reflexivity|].
  rewrite bind_ret_l.
  set (gw := Gateway.mkClient _ _).
  pose proof (invoke_sent adapter gw Gateway.HealthCheck) as Hs.
  cbn [Gateway.invoke] in Hs.
  rewrite outcome_bind, outcome_try_catch, outcome_bind.
  rewrite sent_bind, outcome_try_catch, outcome_bind.
  rewrite sent_try_catch, outcome_bind, sent_bind, Hs.
  destruct (outcome (Gateway.healthCheck adapter gw)); split; reflexivity.
Qed.

(** X20. Start-up does not depend on the gateway: whatever the network
    does with the health probe, and whatever the environment holds,
    [main] reaches the point where the server is connected, having sent
    exactly one request, the GET of [/health]. *)
Theorem startup_survives_the_health_probe
        (adapter : Request -> Exchange) (env : Env) :
  exists st rq,
    outcome (main adapter env) = inr st
    /\ sent (main adapter env) = [rq]
    /\ req_method rq = GET
    /\ req_url rq = "/health"
    /\ req_baseURL rq = Some (GATEWAY_URL env).
Proof.
  destruct (main_returns adapter env) as (gw & Hgw & Hst & Hsent).
  rewrite constructor_returns in Hgw. injection Hgw as <-.
  do 2 eexists. split; [exact Hst|]. split; [exact Hsent|].
  repeat split.
Qed.

Lemma string_or_nonempty (v : option string) (d : string) :
  d <> "" -> string_or v d <> "".
Proof.
  intros Hd. unfold string_or. destruct v as [s|]; [|exact Hd].
  destruct (String.eqb s "") eqn:E; [exact Hd|].
  apply String.eqb_neq in E. exact E.
Qed.

(** X21. The configuration that [main] builds from the environment
    always has a base URL and a tenant id, and neither is the empty
    string: a variable that is unset or empty gives
    [http://localhost:8092] and [core]; the token is taken as it is. *)
Theorem startup_config_is_complete (env : Env) :
  (exists url, baseUrl (startup_config env) = Some url /\ url <> "")
  /\ (exists tenant,
         tenantId (startup_config env) = Some tenant /\ tenant <> "")
  /\ token (startup_config env) = BINELEK_JWT_TOKEN env
  /\ (BINELEK_GATEWAY_URL env = None \/ BINELEK_GATEWAY_URL env = Some "" ->
      baseUrl (startup_config env) = Some "http://localhost:8092")
  /\ (BINELEK_TENANT_ID env = None \/ BINELEK_TENANT_ID env = Some "" ->
      tenantId (startup_config env) = Some "core").
Proof.
  repeat split.
  - eexists. split; [reflexivity|]. apply string_or_nonempty. discriminate.
  - eexists. split; [reflexivity|]. apply string_or_nonempty. discriminate.
  - intros [H | H]; cbn; unfold GATEWAY_URL; rewrite H; reflexivity.
  - intros [H | H]; cbn; unfold TENANT_ID; rewrite H; reflexivity.
Qed.

Lemma all_declared_tools :
  let ts := (declared Ontology ++ declared Search ++ declared AI
               ++ declared Pipeline ++ declared Admin)%list in
  length ts = 22%nat /\ NoDup ts
  /\ forall n, In n ts <-> exists g, In n (declared g).
Proof.
  cbv zeta. split; [reflexivity|]. split.
  - cbn. repeat constructor; cbn; intuition discriminate.
  - intros n. rewrite !in_app_iff. split.
    + intros [H | [H | [H | [H | H]]]];
        [exists Ontology | exists Search | exists AI | exists Pipeline
         | exists Admin]; exact H.
    + intros [g Hin]. destruct g; auto.
Qed.

(** X22. After [main], the list of tools holds the 22 names of the five
    groups, in the order of registration and without a repetition. *)
Theorem listed_tools_are_the_declared_ones
        (adapter : Request -> Exchange) (env : Env) (st : Registry) :
  outcome (main adapter env) = inr st ->
  list_tools st
  = Some (declared Ontology ++ declared Search ++ declared AI
            ++ declared Pipeline ++ declared Admin)%list
  /\ (forall ts, list_tools st = Some ts ->
                 length ts = 22%nat /\ NoDup ts
                 /\ forall n, In n ts <-> exists g, In n (declared g)).
Proof.
  destruct (main_returns adapter env) as (gw & _ & Hst & _).
  rewrite Hst. intros H. injection H as <-.
  split; [reflexivity|].
  intros ts H.
  assert (E : (declared Ontology ++ declared Search ++ declared AI
                 ++ declared Pipeline ++ declared Admin)%list = ts).
  { unfold list_tools in H. cbn [server listTools allTools] in H.
    injection H as <-. reflexivity. }
  rewrite <- E. exact all_declared_tools.
Qed.

Lemma listed_tools_are_the_declared_ones_witness :
  length (declared Ontology ++ declared Search ++ declared AI
            ++ declared Pipeline ++ declared Admin)%list = 22%nat
  /\ NoDup (declared Ontology ++ declared Search ++ declared AI
              ++ declared Pipeline ++ declared Admin)%list.
Proof.
  destruct (proj2 (listed_tools_are_the_declared_ones
                     (always 200 JNull) (mkEnv None None None) _ eq_refl)
              _ eq_refl) as (H1 & H2 & _).
  split; [exact H1 | exact H2].
Defined.

(** X23. Each of the five registrations sets the handler for tool calls
    anew, so after [main] the server answers tool calls with the handler
    registered last, the one of the admin group. A call of a tool that
    is listed but belongs to another group is therefore answered by
    [Unknown tool: <name>], flagged as an error, without any request. *)
Theorem last_registered_handler_answers
        (adapter : Request -> Exchange) (env : Env) (st : Registry) :
  outcome (main adapter env) = inr st ->
  exists gw,
    outcome (Gateway.constructor (startup_config env)) = inr gw
    /\ (forall a request,
           call_tool a st request = Some (dispatch a gw Admin request))
    /\ (forall a g toolName args,
           In toolName (declared g) -> g <> Admin ->
           (exists ts, list_tools st = Some ts /\ In toolName ts)
           /\ call_tool a st (mkCall toolName args)
              = Some (inr (error_result ("Unknown tool: " ++ toolName)),
                      [])).
Proof.
  destruct (main_returns adapter env) as (gw & Hgw & Hst & _).
  rewrite Hst. intros H. injection H as <-.
  exists gw. split; [exact Hgw|]. split; [reflexivity|].
  intros a g toolName args Hin Hne. split.
  - exists (declared Ontology ++ declared Search ++ declared AI
              ++ declared Pipeline ++ declared Admin)%list.
    split; [reflexivity|].
    apply (proj2 (proj2 all_declared_tools)). exists g. exact Hin.
  - unfold call_tool. cbn [server callTool option_map]. f_equal.
    apply (dispatch_unknown a gw Admin (mkCall toolName args)).
    apply (declared_elsewhere g Admin toolName); [|exact Hne].
    unfold mem. apply existsb_exists. exists toolName.
    split; [exact Hin | apply String.eqb_refl].
Qed.

Lemma last_registered_handler_answers_witness :
  call_tool (always 200 (JObj [("id", JStr "e1")]))
    (mkRegistry
       (mkServer (Some (fun a => dispatch a sample_client Admin)) true)
       (declared Ontology ++ declared Search ++ declared AI
          ++ declared Pipeline ++ declared Admin)%list)
    (mkCall "binelek_get_entity" (Some [("entityId", JStr "e1")]))
  = Some (inr (error_result "Unknown tool: binelek_get_entity"), []).
Proof.
  destruct (last_registered_handler_answers (always 200 JNull)
              (mkEnv None None None) _ eq_refl) as (gw & Hgw & _ & H).
  injection Hgw as <-.
  exact (proj2 (H (always 200 (JObj [("id", JStr "e1")])) Ontology
                  "binelek_get_entity" (Some [("entityId", JStr "e1")])
                  (or_introl eq_refl) ltac:(discriminate))).
Defined.
